(** * todoServer.js: a file-backed todo list behind an Express router

    Shallow embedding of [week-2/Week-2-Assignments/02-nodejs/todoServer.js].

    - JSON values are an inductive type; a JavaScript object is the list of
      its own properties in enumeration order (an association list whose keys
      are pairwise distinct).
    - [todos.json] is a piece of state that every store function reads and
      rewrites as a whole; a promise is a function from that state to a
      settled result (resolved or rejected) and the new state.
    - [uuidv4()] is random: the identifier it returns is an argument of the
      request step.
    - Joi and Express are external packages. The part of Joi that the two
      schemas use (object keys, [string()], [boolean()], [required()],
      [default()], the default preferences [abortEarly], [convert] and no
      unknown keys, and the clone it validates) is written out in
      [Module Joi]; of Express 4, what [res.send] does with its argument. *)

From Stdlib Require Import ZArith Ascii String.
From stdpp Require Import base tactics option list strings.

Local Open Scope string_scope.
Local Open Scope list_scope.

(** ** JSON values and JavaScript objects *)

#[local] Set Warnings "-register-all".

Inductive Json : Type :=
| JNull
| JBool (b : bool)
| JNum (n : Z)
| JStr (s : string)
| JArr (items : list Json)
| JObj (props : list (string * Json)).

(** The server never computes with a number, it only looks at [typeof];
    [JNum] carries the literal. *)

Abbreviation object := (list (string * Json)).

(** [o[k]] for an own property; [None] is [undefined]. *)
Fixpoint get_prop (k : string) (o : object) : option Json :=
  match o with
  | [] => None
  | (k', v) :: o' => if decide (k' = k) then Some v else get_prop k o'
  end.

(** [o[k] = v]: an existing property keeps its place, a new one goes last.
    (JavaScript enumerates integer-like keys first; the server only ever adds
    the keys [id], [title], [completed] and [description].) *)
Fixpoint set_prop (k : string) (v : Json) (o : object) : object :=
  match o with
  | [] => [(k, v)]
  | (k', v') :: o' =>
      if decide (k' = k) then (k', v) :: o' else (k', v') :: set_prop k v o'
  end.

(** [{...target, ...source}]: the properties of [source] are copied onto a
    copy of [target], in order. *)
Definition spread (target source : object) : object :=
  fold_left (fun acc kv => set_prop kv.1 kv.2 acc) source target.

(** The own enumerable properties that [...v] copies. [null], booleans and
    numbers have none. Arrays and strings would contribute their indices;
    the server only spreads records found by id and validated bodies, which
    are objects (lemmas [has_id_true] and [valid_body_object]). *)
Definition own_props (v : Json) : object :=
  match v with
  | JObj o => o
  | _ => []
  end.

(** [if (v)] *)
Definition truthy (v : Json) : bool :=
  match v with
  | JNull => false
  | JBool b => b
  | JNum n => negb (n =? 0)%Z
  | JStr s => negb (bool_decide (s = ""))
  | JArr _ | JObj _ => true
  end.

(** [s.toLowerCase()], on the ASCII letters. *)
Definition lower_ascii (c : ascii) : ascii :=
  let n := nat_of_ascii c in
  if (65 <=? n)%nat && (n <=? 90)%nat then ascii_of_nat (n + 32) else c.

Fixpoint toLowerCase (s : string) : string :=
  match s with
  | EmptyString => EmptyString
  | String c s' => String (lower_ascii c) (toLowerCase s')
  end.

(** ** Errors and promises *)

Inductive Error : Type :=
| StorageError   (* fs.readFile / JSON.parse / fs.writeFile rejected *)
| TypeError      (* a property of null, or a method that is not there *)
| RangeError     (* a status code Node refuses to write *)
| TodoNotExists. (* new Error('Todo does not exists.') *)

Inductive result (A : Type) : Type :=
| Ok (a : A)
| Err (e : Error).
Arguments Ok {A} a.
Arguments Err {A} e.

Definition rbind {A B : Type} (r : result A) (f : A -> result B) : result B :=
  match r with
  | Ok a => f a
  | Err e => Err e
  end.

(** The file system as far as the server sees it: what [JSON.parse] gives on
    the content of [todos.json] ([None] when the file is missing, unreadable
    or not JSON), and whether the file can be written. *)
Record Fs : Type := mkFs {
  document : option Json;
  writable : bool
}.

(** An async function: run on the file system, it settles ([Ok] resolved,
    [Err] rejected) and leaves a file system. *)
Definition Async (A : Type) : Type := Fs -> result A * Fs.

Definition resolve {A : Type} (a : A) : Async A := fun fs => (Ok a, fs).
Definition reject {A : Type} (e : Error) : Async A := fun fs => (Err e, fs).

Definition bind {A B : Type} (c : Async A) (k : A -> Async B) : Async B :=
  fun fs =>
    match c fs with
    | (Ok a, fs') => k a fs'
    | (Err e, fs') => (Err e, fs')
    end.

(** A synchronous computation that may throw, inside an async function. *)
Definition lift {A : Type} (r : result A) : Async A := fun fs => (r, fs).

(** [try { c } catch (err) { h }] *)
Definition try_catch {A : Type} (c : Async A) (h : Error -> Async A) : Async A :=
  fun fs =>
    match c fs with
    | (Ok a, fs') => (Ok a, fs')
    | (Err e, fs') => h e fs'
    end.

Notation "'await' x <- c ; k" := (bind c (fun x => k))
  (at level 10, x name, c at level 100, k at level 200, only parsing).

(** [fs.readFile(...).then(JSON.parse)] *)
Definition find : Async Json :=
  fun fs =>
    match document fs with
    | Some data => (Ok data, fs)
    | None => (Err StorageError, fs)
    end.

(** [fs.writeFile(..., JSON.stringify(todos))]: the whole document is
    replaced, or the write is rejected and the file keeps its content. *)
Definition writeFile (todos : list Json) : Async unit :=
  fun fs =>
    if writable fs
    then (Ok tt, mkFs (Some (JArr todos)) true)
    else (Err StorageError, fs).

(** ** The array methods the store calls on the parsed document *)

(** [todo.id]: throws on [null], is [undefined] on the other values that are
    not objects. *)
Definition prop_id (todo : Json) : result (option Json) :=
  match todo with
  | JNull => Err TypeError
  | JObj o => Ok (get_prop "id" o)
  | _ => Ok None
  end.

(** [v === id] for a string [id] *)
Definition strict_eq_string (v : option Json) (id : string) : bool :=
  match v with
  | Some (JStr s) => bool_decide (s = id)
  | _ => false
  end.

(** The callback [(todo) => todo.id === id] *)
Definition has_id (id : string) (todo : Json) : result bool :=
  rbind (prop_id todo) (fun v => Ok (strict_eq_string v id)).

(** Only an array has [filter], [findIndex], [push] and [splice]. *)
Definition as_array (v : Json) : result (list Json) :=
  match v with
  | JArr items => Ok items
  | _ => Err TypeError
  end.

(** [items.filter(p)]: every element is visited. *)
Fixpoint filter_items (p : Json -> result bool) (items : list Json)
  : result (list Json) :=
  match items with
  | [] => Ok []
  | x :: rest =>
      rbind (p x) (fun keep =>
      rbind (filter_items p rest) (fun kept =>
      Ok (if keep then x :: kept else kept)))
  end.

(** [items.findIndex(p)]: stops at the first hit, -1 when there is none. *)
Fixpoint findIndex_from (p : Json -> result bool) (items : list Json) (i : Z)
  : result Z :=
  match items with
  | [] => Ok (-1)%Z
  | x :: rest =>
      rbind (p x) (fun hit =>
      if hit then Ok i else findIndex_from p rest (i + 1)%Z)
  end.

Definition findIndex (p : Json -> result bool) (items : list Json) : result Z :=
  findIndex_from p items 0%Z.

(** [items.splice(start, deleteCount, ...inserted)], the array afterwards:
    a negative [start] counts from the end, and both numbers are clamped. *)
Definition splice (items : list Json) (start deleteCount : Z)
    (inserted : list Json) : list Json :=
  let len := Z.of_nat (length items) in
  let from := if (start <? 0)%Z then Z.max (len + start) 0 else Z.min start len in
  let count := Z.min (Z.max deleteCount 0) (len - from) in
  take (Z.to_nat from) items ++ inserted ++ drop (Z.to_nat (from + count)) items.

(** ** Joi, as far as the two schemas use it *)

Module Joi.

Inductive Type_ : Type :=
| string_    (* Joi.string() *)
| boolean_.  (* Joi.boolean() *)

(** One key of [Joi.object({...})]. *)
Record Key : Type := mkKey {
  type : Type_;
  required : bool;          (* .required() *)
  default : option Json     (* .default(v) *)
}.

(** [Joi.object({...})]: the keys in the order they are written. *)
Definition ObjectSchema : Type := list (string * Key).

(** The error codes the two schemas can produce; the key is the path. *)
Inductive Detail : Type :=
| object_base
| any_required (k : string)
| string_base (k : string)
| string_empty (k : string)
| boolean_base (k : string)
| object_unknown (k : string).

Definition quote : string := String "034"%char EmptyString.
Definition label (k : string) : string := quote ++ k ++ quote.

(** Joi's message templates. *)
Definition message (d : Detail) : string :=
  match d with
  | object_base => label "value" ++ " must be of type object"
  | any_required k => label k ++ " is required"
  | string_base k => label k ++ " must be a string"
  | string_empty k => label k ++ " is not allowed to be empty"
  | boolean_base k => label k ++ " must be a boolean"
  | object_unknown k => label k ++ " is not allowed"
  end.

(** [boolean()] under [convert]: the strings true and false, in any case,
    become booleans. *)
Definition boolean_coerce (v : Json) : Json :=
  match v with
  | JStr s =>
      let normalized := toLowerCase s in
      if decide (normalized = "true") then JBool true
      else if decide (normalized = "false") then JBool false
      else v
  | _ => v
  end.

(** One key against [value[k]]: a detail, or the value to keep under the
    key ([None]: nothing to write). *)
Definition validate_item (k : string) (s : Key) (item : option Json)
  : Detail + option Json :=
  match item with
  | None => if required s then inl (any_required k) else inr (default s)
  | Some v =>
      match type s with
      | string_ =>
          match v with
          | JStr s' => if decide (s' = "") then inl (string_empty k) else inr (Some v)
          | _ => inl (string_base k)
          end
      | boolean_ =>
          match boolean_coerce v with
          | JBool b => inr (Some (JBool b))
          | _ => inl (boolean_base k)
          end
      end
  end.

(** Joi validates a clone of the input: a new object with the prototype
    of the input, onto which [Object.assign] copies the own properties. A
    parsed body can have an own property named [__proto__] ([JSON.parse]
    defines it as data); assigning it to the clone runs the setter of
    [Object.prototype]: the clone gets no own property of that name, and the
    value, when it is an object, becomes the prototype of the clone. *)
Definition clone_own (input : object) : object :=
  filter (fun kv => kv.1 <> "__proto__") input.

(** The properties the clone inherits. Of [Object.prototype], and of an
    array taken as prototype, none has the name of a key of the two schemas;
    they are left out. *)
Definition clone_proto (input : object) : object :=
  match get_prop "__proto__" input with
  | Some (JObj p) => p
  | _ => []
  end.

(** [value[k]] on the clone: an own property, or else an inherited one. *)
Definition read (k : string) (own proto : object) : option Json :=
  match get_prop k own with
  | Some v => Some v
  | None => get_prop k proto
  end.

(** What Joi sees under [k] in the input. *)
Definition item (k : string) (input : object) : option Json :=
  read k (clone_own input) (clone_proto input).

(** The declared keys, in order, on the clone ([value] is its own
    properties, [proto] what it inherits). With [abortEarly] the first
    detail ends the validation. *)
Fixpoint validate_keys (abortEarly : bool) (keys : ObjectSchema)
    (proto value : object) : list Detail * object :=
  match keys with
  | [] => ([], value)
  | (k, s) :: rest =>
      match validate_item k s (read k value proto) with
      | inl d =>
          if abortEarly then ([d], value)
          else let r := validate_keys abortEarly rest proto value in
               (d :: r.1, r.2)
      | inr None => validate_keys abortEarly rest proto value
      | inr (Some v) => validate_keys abortEarly rest proto (set_prop k v value)
      end
  end.

(** [Object.keys(value)] without the declared keys: the own keys of the
    clone that the schema does not declare, in order. *)
Definition unprocessed (keys : ObjectSchema) (value : object) : list string :=
  filter (fun k => k ∉ keys.*1) (value.*1).

Record ValidationResult : Type := mkResult {
  details : list Detail;   (* error.details; [] when error is undefined *)
  value : Json
}.

(** [schema.validate(input)]. The input is not modified: defaults and
    conversions go into [value]. Undeclared keys are looked at after the
    declared ones. *)
Definition validate_with (abortEarly : bool) (schema : ObjectSchema)
    (input : Json) : ValidationResult :=
  match input with
  | JObj o =>
      let r := validate_keys abortEarly schema (clone_proto o) (clone_own o) in
      let unknown := map object_unknown (unprocessed schema (clone_own o)) in
      match r.1, abortEarly with
      | _ :: _, true => mkResult r.1 (JObj r.2)
      | _, true => mkResult (take 1 unknown) (JObj r.2)
      | _, false => mkResult (r.1 ++ unknown) (JObj r.2)
      end
  | _ => mkResult [object_base] input
  end.

(** The default preferences: [abortEarly: true]. *)
Definition validate : ObjectSchema -> Json -> ValidationResult :=
  validate_with true.

End Joi.

(** ** schemas *)

Definition todoSchema : Joi.ObjectSchema :=
  [ ("title", Joi.mkKey Joi.string_ true None);
    ("completed", Joi.mkKey Joi.boolean_ false (Some (JBool false)));
    ("description", Joi.mkKey Joi.string_ true None) ].

Definition updateTodoSchema : Joi.ObjectSchema :=
  [ ("title", Joi.mkKey Joi.string_ false None);
    ("completed", Joi.mkKey Joi.boolean_ false None);
    ("description", Joi.mkKey Joi.string_ false None) ].

(** ** The store *)

Definition findById (id : string) : Async Json :=
  await todos <- find;
  await items <- lift (as_array todos);
  await found <- lift (filter_items (has_id id) items);
  resolve (default JNull (head found)).

Definition save (data : Json) : Async Json :=
  await todos <- find;
  await items <- lift (as_array todos);
  let items := items ++ [data] in
  await _ <- writeFile items;
  resolve data.

Definition updateByIdAndUpdate (todoId : string) (update : Json) : Async Json :=
  await todo <- findById todoId;
  if truthy todo then
    let update := JObj (spread (own_props todo) (own_props update)) in
    await todos <- find;
    await items <- lift (as_array todos);
    await updateIndex <- lift (findIndex (has_id todoId) items);
    let items := splice items updateIndex 1 [update] in
    await _ <- writeFile items;
    resolve update
  else reject TodoNotExists.

Definition deleteById (todoId : string) : Async unit :=
  await todo <- findById todoId;
  if truthy todo then
    await todos <- find;
    await items <- lift (as_array todos);
    await deleteIndex <- lift (findIndex (has_id todoId) items);
    let items := splice items deleteIndex 1 [] in
    await _ <- writeFile items;
    resolve tt
  else reject TodoNotExists.

(** ** Responses *)

(** The Express call that ends a request. *)
Inductive Response : Type :=
| send (body : Json)                    (* res.send(body) *)
| sendStatus (code : nat)               (* res.sendStatus(code) *)
| status_json (code : nat) (body : Json) (* res.status(code).json(body) *)
| no_route.                             (* no route matched: Express answers 404 *)

(** The status line. Express 4 takes a number given to [res.send] as the
    status code; every other value is a body, sent with the status left at
    200 ([null] as an empty body). *)
Definition status (r : Response) : nat :=
  match r with
  | send (JNum n) => Z.to_nat n
  | send _ => 200
  | sendStatus code => code
  | status_json code _ => code
  | no_route => 404
  end.

(** [res.send(body)] where the body can be any document: Node throws when
    the response is written with a status code outside 100..999. *)
Definition res_send (body : Json) : result Response :=
  match body with
  | JNum n =>
      if (100 <=? n)%Z && (n <=? 999)%Z then Ok (send body) else Err RangeError
  | _ => Ok (send body)
  end.

(** An object literal [{k: v}] as [JSON.stringify] sends it: a property whose
    value is [undefined] is left out. *)
Definition literal (k : string) (v : option Json) : Json :=
  match v with
  | Some v => JObj [(k, v)]
  | None => JObj []
  end.

(** ** schema validators *)

Definition validateBody (schema : Joi.ObjectSchema) (body : Json)
    (next : Async Response) : Async Response :=
  match Joi.details (Joi.validate schema body) with
  | d :: _ => resolve (status_json 400 (JObj [("error", JStr (Joi.message d))]))
  | [] => next
  end.

(** ** controllers *)

Definition getAllTodos : Async Response :=
  await todos <- find;
  lift (res_send todos).

(** [todo], when it is not [null], is an object ([has_id_true]): [res.send]
    sends it as JSON. *)
Definition getTodoById (todoId : string) : Async Response :=
  await todo <- findById todoId;
  if truthy todo then resolve (send todo) else resolve (sendStatus 404).

(** [uuid] is what [uuidv4()] returns in this call. *)
Definition createTodo (uuid : string) (body : Json) : Async Response :=
  let todo := body in
  await newTodo <- save (JObj (spread [("id", JStr uuid)] (own_props todo)));
  resolve (status_json 201 (JObj (spread [] (own_props newTodo)))).

Definition updateTodo (todoId : string) (body : Json) : Async Response :=
  let update := body in
  try_catch
    (await updatedTodo <- updateByIdAndUpdate todoId update;
     resolve (status_json 200 (literal "id" (get_prop "id" (own_props updatedTodo)))))
    (fun err => resolve (sendStatus 404)).

Definition deleteTodo (todoId : string) : Async Response :=
  try_catch
    (await _ <- deleteById todoId;
     resolve (sendStatus 200))
    (fun err => resolve (sendStatus 404)).

(** ** routes *)

(** A request, after [bodyParser.json()] and the router's path matching. *)
Inductive Request : Type :=
| GET_todos
| GET_todo (id : string)
| POST_todos (body : Json)
| PUT_todo (id : string) (body : Json)
| DELETE_todo (id : string)
| other_route.

(** One request against the file system. A rejected promise ([Err]) is a
    failure no handler caught: the controller wrote no response. *)
Definition app (uuid : string) (req : Request) : Async Response :=
  match req with
  | GET_todos => getAllTodos
  | GET_todo id => getTodoById id
  | POST_todos body => validateBody todoSchema body (createTodo uuid body)
  | PUT_todo id body => validateBody updateTodoSchema body (updateTodo id body)
  | DELETE_todo id => deleteTodo id
  | other_route => resolve no_route
  end.

(** The document a request leaves behind. *)
Definition after (uuid : string) (req : Request) (fs : Fs) : Fs :=
  (app uuid req fs).2.

Definition response (uuid : string) (req : Request) (fs : Fs) : result Response :=
  (app uuid req fs).1.

(** [schema.validate(body)] reports no error. *)
Definition valid (schema : Joi.ObjectSchema) (body : Json) : Prop :=
  Joi.details (Joi.validate schema body) = [].

(** [todo.id] can be read: the element is not [null]. *)
Definition readable (x : Json) : Prop := x <> JNull.

(** [o], at position [i], is the first element of [items] whose [id] is
    [id]: the one [findById] returns and [findIndex] points at. *)
Definition todo_at (id : string) (items : list Json) (i : nat) (o : object) : Prop :=
  items !! i = Some (JObj o) /\
  get_prop "id" o = Some (JStr id) /\
  forall j y, j < i -> items !! j = Some y -> has_id id y <> Ok true.

(** No element of [items] has the id [id]. *)
Definition absent (id : string) (items : list Json) : Prop :=
  forall x, x ∈ items -> has_id id x <> Ok true.

(** At most one element of [items] has the id [id]. *)
Definition at_most_one (id : string) (items : list Json) : Prop :=
  forall i j x y,
    items !! i = Some x -> items !! j = Some y ->
    has_id id x = Ok true -> has_id id y = Ok true -> i = j.

(** What [todo.id] is for the elements of the collection, position by
    position ([None]: a document that is not an array). *)
Definition id_of (x : Json) : option Json :=
  match x with
  | JObj o => get_prop "id" o
  | _ => None
  end.

Definition stored_ids (fs : Fs) : option (list (option Json)) :=
  match document fs with
  | Some (JArr items) => Some (id_of <$> items)
  | _ => None
  end.

(** No two records of the collection share an id. *)
Definition keyed_by_id (fs : Fs) : Prop :=
  forall items, document fs = Some (JArr items) -> forall id, at_most_one id items.

(** [uuid] is not the id of a record of the collection. *)
Definition fresh (uuid : string) (fs : Fs) : Prop :=
  forall items, document fs = Some (JArr items) -> absent uuid items.

(** A sequence of requests, each with the identifier [uuidv4()] would return
    in it, one after the other. *)
Fixpoint run (steps : list (string * Request)) (fs : Fs) : Fs :=
  match steps with
  | [] => fs
  | (uuid, req) :: rest => run rest (after uuid req fs)
  end.

(** Every identifier is new to the collection when it is generated. *)
Fixpoint fresh_run (steps : list (string * Request)) (fs : Fs) : Prop :=
  match steps with
  | [] => True
  | (uuid, req) :: rest => fresh uuid fs /\ fresh_run rest (after uuid req fs)
  end.

(** One POST /todos per body, each with the identifier generated for it. *)
Definition posts (bodies : list (string * Json)) : list (string * Request) :=
  (fun ub => (ub.1, POST_todos ub.2)) <$> bodies.

(** The record [createTodo] hands to [save]: [{ id: uuidv4(), ...todo }]. *)
Definition new_record (uuid : string) (body : Json) : object :=
  spread [("id", JStr uuid)] (own_props body).

(** What [Joi.string()] lets through: a string that is not empty. *)
Definition nonempty_string (v : option Json) : Prop :=
  exists s, v = Some (JStr s) /\ s <> "".

(** What [Joi.boolean()] lets through: a boolean, or one of the strings true
    and false in any case. *)
Definition boolean_like (v : Json) : Prop :=
  (exists b, v = JBool b) \/
  (exists s, v = JStr s /\ (toLowerCase s = "true" \/ toLowerCase s = "false")).

(** What the validator sees under a key of a body: the own property or,
    when there is none, the property of the object the body has under its
    own key [__proto__]. *)
Definition seen (k : string) (o : object) : option Json :=
  match get_prop k o with
  | Some v => Some v
  | None =>
      match get_prop "__proto__" o with
      | Some (JObj p) => get_prop k p
      | _ => None
      end
  end.

(** A declared key passes on the value the clone has under it. *)
Definition item_passes (proto own : object) (ks : string * Joi.Key) : Prop :=
  exists r, Joi.validate_item ks.1 ks.2 (Joi.read ks.1 own proto) = inr r.

(** The number of elements of the collection (0 without an array). *)
Definition size (fs : Fs) : nat :=
  match document fs with
  | Some (JArr items) => length items
  | _ => 0
  end.

(** The requests that can write: POST, PUT and DELETE. *)
Definition writes (req : Request) : bool :=
  match req with
  | POST_todos _ | PUT_todo _ _ | DELETE_todo _ => true
  | GET_todos | GET_todo _ | other_route => false
  end.

(** The id a request can write under: the one generated for POST, the one
    in the path for PUT and DELETE. *)
Definition written_id (uuid : string) (req : Request) : option string :=
  match req with
  | POST_todos _ => Some uuid
  | PUT_todo id _ | DELETE_todo id => Some id
  | GET_todos | GET_todo _ | other_route => None
  end.

(** ** Sample data *)

(** An empty collection in a writable file. *)
Definition empty_store : Fs := mkFs (Some (JArr [])) true.

(** No document: the file is missing, unreadable or not JSON. *)
Definition broken_store : Fs := mkFs None true.

(** The body of the example in the header of the source, without
    [completed]. *)
Definition groceries : Json :=
  JObj [("title", JStr "Buy groceries");
        ("description", JStr "I should buy groceries")].

(** The record [POST /todos] makes of [groceries] under the id [id]. *)
Definition groceries_record (id : string) : Json :=
  JObj [("id", JStr id);
        ("title", JStr "Buy groceries");
        ("description", JStr "I should buy groceries")].

(** A collection holding that one record. *)
Definition groceries_store (id : string) : Fs :=
  mkFs (Some (JArr [groceries_record id])) true.

(** The same file when it cannot be written. *)
Definition read_only_store (id : string) : Fs :=
  mkFs (Some (JArr [groceries_record id])) false.

(** A collection with a [null] after the record. *)
Definition store_with_null (id : string) : Fs :=
  mkFs (Some (JArr [groceries_record id; JNull])) true.

(** A document that is JSON but not an array. *)
Definition object_store : Fs := mkFs (Some (JObj [])) true.

(** * Properties *)

(** ** Objects *)

Section Objects.
Implicit Types (k : string) (v : Json) (o t s : object).

Lemma get_set_eq k v o : get_prop k (set_prop k v o) = Some v.
Proof.
  induction o as [|[k' v'] o IH]; simpl.
  - by rewrite decide_True.
  - destruct (decide (k' = k)) as [->|Hne]; simpl.
    + by rewrite decide_True.
    + by rewrite decide_False.
Qed.

Lemma get_set_ne k k' v o : k <> k' -> get_prop k (set_prop k' v o) = get_prop k o.
Proof.
  intros Hne. induction o as [|[k0 v0] o IH]; simpl.
  - by rewrite decide_False.
  - destruct (decide (k0 = k')) as [->|Hk0]; simpl.
    + by rewrite !decide_False.
    + destruct (decide (k0 = k)); [done | apply IH].
Qed.

Lemma get_prop_None k o : get_prop k o = None <-> k ∉ o.*1.
Proof.
  induction o as [|[k' v'] o IH]; simpl.
  - split; [intros _; apply not_elem_of_nil | done].
  - rewrite not_elem_of_cons. destruct (decide (k' = k)) as [->|Hne].
    + split; [done | intros [? _]; done].
    + rewrite IH. split; [intros ?; split; [congruence | done] | intros [_ ?]; done].
Qed.

Lemma set_prop_new k v o : k ∉ o.*1 -> set_prop k v o = o ++ [(k, v)].
Proof.
  induction o as [|[k' v'] o IH]; simpl; [done|].
  rewrite not_elem_of_cons. intros [Hne Hnotin].
  rewrite decide_False by congruence. by rewrite IH.
Qed.

Lemma set_prop_keys k v o :
  (set_prop k v o).*1 = if decide (k ∈ o.*1) then o.*1 else o.*1 ++ [k].
Proof.
  induction o as [|[k' v'] o IH].
  - destruct (decide (k ∈ ([] : object).*1)) as [Hin|_]; [|done].
    by apply elem_of_nil in Hin.
  - cbn [set_prop]. destruct (decide (k' = k)) as [->|Hne].
    + destruct (decide (k ∈ ((k, v') :: o).*1)) as [_|Hnotin]; [done|].
      destruct Hnotin. apply list_elem_of_here.
    + rewrite fmap_cons, IH.
      destruct (decide (k ∈ o.*1)) as [Hin|Hnotin];
        destruct (decide (k ∈ ((k', v') :: o).*1)) as [Hin'|Hnotin']; try done.
      * destruct Hnotin'. by apply list_elem_of_further.
      * apply elem_of_cons in Hin' as [->|Hin']; done.
Qed.

Lemma set_prop_NoDup k v o : NoDup o.*1 -> NoDup (set_prop k v o).*1.
Proof.
  intros Hnd. rewrite set_prop_keys. case_decide; [done|].
  apply NoDup_app. split_and!; [done | | apply NoDup_singleton].
  intros x Hx Hx'. apply list_elem_of_singleton in Hx'. by subst.
Qed.

Lemma spread_NoDup t s : NoDup t.*1 -> NoDup (spread t s).*1.
Proof.
  unfold spread. revert t.
  induction s as [|[k v] s IH]; intros t Hnd; simpl; [done|].
  apply IH. by apply set_prop_NoDup.
Qed.

(** Copying onto an object that has none of the keys appends. *)
Lemma spread_disjoint t s : NoDup (t ++ s).*1 -> spread t s = t ++ s.
Proof.
  unfold spread. revert t.
  induction s as [|[k v] s IH]; intros t Hnd; simpl.
  - by rewrite app_nil_r.
  - rewrite set_prop_new.
    + rewrite IH; rewrite <- app_assoc; done.
    + rewrite fmap_app in Hnd. apply NoDup_app in Hnd as (_ & Hdisj & _).
      intros Hin. apply (Hdisj k Hin). simpl. apply list_elem_of_here.
Qed.

(** [{...o}] is a copy of [o]. *)
Lemma spread_copy o : NoDup o.*1 -> spread [] o = o.
Proof. intros Hnd. by rewrite spread_disjoint. Qed.

Lemma spread_empty t : spread t [] = t.
Proof. done. Qed.

(** A key the source does not have keeps the target's value. *)
Lemma get_spread_other k t s : k ∉ s.*1 -> get_prop k (spread t s) = get_prop k t.
Proof.
  unfold spread. revert t.
  induction s as [|[k' v] s IH]; intros t Hnotin; simpl; [done|].
  simpl in Hnotin. apply not_elem_of_cons in Hnotin as [Hne Hnotin].
  rewrite IH by done. by apply get_set_ne.
Qed.

(** A key the source has takes the source's value. *)
Lemma get_spread_source k v t s :
  NoDup s.*1 -> get_prop k s = Some v -> get_prop k (spread t s) = Some v.
Proof.
  revert t.
  induction s as [|[k' v'] s IH]; intros t Hnd Hget; simpl in *; [done|].
  apply NoDup_cons in Hnd as [Hk' Hnd].
  destruct (decide (k' = k)) as [->|Hne].
  - injection Hget as ->.
    change (get_prop k (spread (set_prop k v t) s) = Some v).
    rewrite get_spread_other by done. apply get_set_eq.
  - by apply (IH (set_prop k' v' t)).
Qed.

End Objects.

(** ** The validator *)

Section Validator.
Implicit Types (schema keys : Joi.ObjectSchema) (o : object) (body : Json).



(** The clone has the own properties of the input, [__proto__] apart. *)
Lemma clone_own_keys o k :
  k ∈ (Joi.clone_own o).*1 <-> k ∈ o.*1 /\ k <> "__proto__".
Proof.
  unfold Joi.clone_own. induction o as [|[k' v] o IH].
  - split; [by intros ?%elem_of_nil | by intros [?%elem_of_nil _]].
  - rewrite filter_cons. simpl. destruct (decide (k' <> "__proto__")) as [Hk'|Hk'].
    + rewrite fmap_cons, !elem_of_cons, IH. simpl. split.
      * intros [->|[? ?]]; [by split; [left|] | by split; [right|]].
      * intros [[->|?] ?]; [by left | by right].
    + apply dec_stable in Hk'. subst k'. rewrite elem_of_cons, IH. split.
      * intros [? ?]. by split; [right|].
      * intros [[->|?] ?]; done.
Qed.

Lemma get_prop_clone_own o k :
  k <> "__proto__" -> get_prop k (Joi.clone_own o) = get_prop k o.
Proof.
  intros Hk. unfold Joi.clone_own. induction o as [|[k' v] o IH]; [done|].
  rewrite filter_cons. simpl. destruct (decide (k' <> "__proto__")) as [Hk'|Hk'].
  - simpl. by rewrite IH.
  - apply dec_stable in Hk'. subst k'. by rewrite decide_False by done.
Qed.

(** Under a key other than [__proto__] Joi sees the own property of the
    input or, when there is none, the property of the object the input has
    under [__proto__]. *)
Lemma item_own_or_inherited o k :
  k <> "__proto__" ->
  Joi.item k o =
    match get_prop k o with
    | Some v => Some v
    | None => get_prop k (Joi.clone_proto o)
    end.
Proof.
  intros Hk. unfold Joi.item, Joi.read. by rewrite get_prop_clone_own.
Qed.

Lemma item_seen o k : k <> "__proto__" -> Joi.item k o = seen k o.
Proof.
  intros Hk. rewrite item_own_or_inherited by done. unfold seen, Joi.clone_proto.
  destruct (get_prop k o); [done|].
  by destruct (get_prop "__proto__" o) as [[| | | | |p]|].
Qed.

(** Without [__proto__] the clone is the input. *)
Lemma clone_own_plain o : "__proto__" ∉ o.*1 -> Joi.clone_own o = o.
Proof.
  unfold Joi.clone_own. induction o as [|[k v] o IH]; [done|].
  rewrite fmap_cons, not_elem_of_cons. simpl. intros [Hk Ho].
  rewrite filter_cons. simpl. rewrite decide_True by done. by rewrite IH.
Qed.

(** A body that passes is an object whose own keys are declared keys or
    [__proto__]. *)
Lemma valid_body_object schema body :
  valid schema body ->
  exists o, body = JObj o /\
    forall k, k ∈ o.*1 -> k = "__proto__" \/ k ∈ schema.*1.
Proof.
  unfold valid, Joi.validate. destruct body; try done. simpl.
  intros Hvalid. exists props. split; [done|]. intros k Hk.
  destruct (Joi.validate_keys true schema _ _).1; [|done].
  simpl in Hvalid.
  destruct (decide (k = "__proto__")) as [|Hproto]; [by left|]. right.
  destruct (decide (k ∈ schema.*1)) as [|Hnotin]; [done|].
  assert (Hin : k ∈ Joi.unprocessed schema (Joi.clone_own props)).
  { apply list_elem_of_filter. split; [done|]. by apply clone_own_keys. }
  destruct (Joi.unprocessed schema _); [by apply elem_of_nil in Hin | done].
Qed.

(** An undeclared key other than [__proto__] is reported, unless a
    declared key fails first. *)
Lemma unknown_key_rejected schema o k :
  k ∈ o.*1 -> k ∉ schema.*1 -> k <> "__proto__" ->
  exists d ds, Joi.details (Joi.validate schema (JObj o)) = d :: ds.
Proof.
  intros Hin Hnotin Hproto.
  destruct (Joi.details (Joi.validate schema (JObj o))) as [|d ds] eqn:Hd;
    [|by eauto].
  destruct (valid_body_object schema (JObj o) Hd) as (o' & [= <-] & Hdecl).
  by destruct (Hdecl k Hin).
Qed.

(** The validator answers by itself when the body fails, and leaves the
    file alone. *)
Lemma validateBody_invalid schema body next d ds fs :
  Joi.details (Joi.validate schema body) = d :: ds ->
  validateBody schema body next fs
  = (Ok (status_json 400 (JObj [("error", JStr (Joi.message d))])), fs).
Proof. unfold validateBody. by intros ->. Qed.

Lemma validateBody_valid schema body next :
  valid schema body -> validateBody schema body next = next.
Proof. unfold valid, validateBody. by intros ->. Qed.

Lemma valid_dec schema body :
  valid schema body \/ exists d ds, Joi.details (Joi.validate schema body) = d :: ds.
Proof.
  unfold valid. destruct (Joi.details (Joi.validate schema body)); eauto.
Qed.

End Validator.

(** ** Arrays: [filter], [findIndex] and [splice] on the parsed document *)

Section Arrays.
Implicit Types (id : string) (x : Json) (items found : list Json) (o : object).

Lemma has_id_readable id x : readable x -> exists b, has_id id x = Ok b.
Proof. unfold readable, has_id. destruct x; simpl; by eauto. Qed.

Lemma has_id_true id x :
  has_id id x = Ok true <-> exists o, x = JObj o /\ get_prop "id" o = Some (JStr id).
Proof.
  unfold has_id. split.
  - destruct x as [| | | | |o]; simpl; try done.
    destruct (get_prop "id" o) as [[| | |s| |]|] eqn:Hid; simpl; try done.
    intros [= Heq]. apply bool_decide_eq_true in Heq as ->. by eauto.
  - intros (o & -> & Hid). simpl. rewrite Hid. simpl.
    by rewrite bool_decide_eq_true_2.
Qed.

Lemma has_id_Ok_readable id x b : has_id id x = Ok b -> readable x.
Proof. by destruct x. Qed.

Lemma todo_at_here id x items o :
  todo_at id (x :: items) 0 o <-> x = JObj o /\ get_prop "id" o = Some (JStr id).
Proof.
  unfold todo_at. simpl. split.
  - intros ([= ->] & Hid & _). done.
  - intros [-> Hid]. split_and!; [done..|]. intros j y Hj. lia.
Qed.

Lemma todo_at_later id x items i o :
  todo_at id (x :: items) (S i) o <-> has_id id x <> Ok true /\ todo_at id items i o.
Proof.
  unfold todo_at. simpl. split.
  - intros (Hlook & Hid & Hfirst). split_and!; [|done..|].
    + apply (Hfirst 0 x); [lia | done].
    + intros j y Hj Hy. apply (Hfirst (S j) y); [lia | done].
  - intros (Hx & Hlook & Hid & Hfirst). split_and!; [done..|].
    intros [|j] y Hj Hy; simpl in Hy.
    + by injection Hy as <-.
    + apply (Hfirst j y); [lia | done].
Qed.

Lemma todo_at_lt id items i o : todo_at id items i o -> i < length items.
Proof. intros (Hlook & _). by eapply lookup_lt_Some. Qed.

Lemma absent_cons id x items :
  absent id (x :: items) <-> has_id id x <> Ok true /\ absent id items.
Proof.
  unfold absent. split.
  - intros H. split; [apply H, list_elem_of_here|].
    intros y Hy. by apply H, list_elem_of_further.
  - intros [Hx H] y [->|Hy]%elem_of_cons; [done | by apply H].
Qed.

(** [filter] throws on the first [null] and nowhere else. *)
Lemma filter_items_readable id items :
  Forall readable items -> exists found, filter_items (has_id id) items = Ok found.
Proof.
  induction 1 as [|x items Hx _ [found IH]]; simpl; [by eauto|].
  destruct (has_id_readable id x Hx) as [b ->]. simpl. rewrite IH. simpl.
  by eauto.
Qed.

Lemma filter_items_Ok_readable id items found :
  filter_items (has_id id) items = Ok found -> Forall readable items.
Proof.
  revert found. induction items as [|x items IH]; intros found; simpl; [done|].
  destruct (has_id id x) as [b|] eqn:Hx; simpl; [|done].
  destruct (filter_items (has_id id) items) as [kept|] eqn:Hrest; simpl; [|done].
  intros _. constructor; [by eapply has_id_Ok_readable | by eapply IH].
Qed.

(** What [filter(...)[0]] is on an array whose first match is [o]. *)
Lemma filter_items_found id items i o :
  Forall readable items -> todo_at id items i o ->
  exists kept, filter_items (has_id id) items = Ok (JObj o :: kept).
Proof.
  intros Hread. revert i.
  induction Hread as [|x items Hx Hread IH]; intros i Hat.
  - destruct Hat as (Hlook & _). done.
  - simpl. destruct (filter_items_readable id items Hread) as [kept Hkept].
    destruct i as [|i].
    + apply todo_at_here in Hat as [-> Hid].
      assert (Htrue : has_id id (JObj o) = Ok true)
        by (apply has_id_true; eauto).
      rewrite Htrue, Hkept. simpl. by eauto.
    + apply todo_at_later in Hat as [Hne Hat].
      destruct (has_id_readable id x Hx) as [[|] Hb]; [done|].
      rewrite Hb. simpl. destruct (IH i Hat) as [kept' ->]. simpl. by eauto.
Qed.

Lemma filter_items_absent id items :
  Forall readable items -> absent id items ->
  filter_items (has_id id) items = Ok [].
Proof.
  induction 1 as [|x items Hx Hread IH]; intros Habs; simpl; [done|].
  apply absent_cons in Habs as [Hne Habs].
  destruct (has_id_readable id x Hx) as [[|] Hb]; [done|].
  rewrite Hb, IH by done. done.
Qed.

(** Every array is in one of the two cases, when [filter] returns. *)
Lemma filter_items_cases id items found :
  filter_items (has_id id) items = Ok found ->
  (found = [] /\ absent id items) \/
  (exists i o kept, found = JObj o :: kept /\ todo_at id items i o).
Proof.
  revert found. induction items as [|x items IH]; intros found; simpl.
  - intros [= <-]. left. split; [done|]. by intros x Hx%elem_of_nil.
  - destruct (has_id id x) as [b|] eqn:Hx; simpl; [|done].
    destruct (filter_items (has_id id) items) as [kept|] eqn:Hrest; simpl; [|done].
    intros [= <-]. destruct b.
    + right. apply has_id_true in Hx as (o & -> & Hid).
      exists 0, o, kept. split; [done|]. by apply todo_at_here.
    + destruct (IH kept eq_refl) as [[-> Habs]|(i & o & kept' & -> & Hat)].
      * left. split; [done|]. apply absent_cons. split; [congruence | done].
      * right. exists (S i), o, kept'. split; [done|].
        apply todo_at_later. split; [congruence | done].
Qed.

(** [findIndex] stops at the element [filter(...)[0]] is. *)
Lemma findIndex_from_found id items i o k :
  Forall readable items -> todo_at id items i o ->
  findIndex_from (has_id id) items k = Ok (k + Z.of_nat i)%Z.
Proof.
  intros Hread. revert i k.
  induction Hread as [|x items Hx Hread IH]; intros i k Hat.
  - destruct Hat as (Hlook & _). done.
  - simpl. destruct i as [|i].
    + apply todo_at_here in Hat as [-> Hid].
      assert (Htrue : has_id id (JObj o) = Ok true)
        by (apply has_id_true; eauto).
      rewrite Htrue. simpl. f_equal. lia.
    + apply todo_at_later in Hat as [Hne Hat].
      destruct (has_id_readable id x Hx) as [[|] Hb]; [done|].
      rewrite Hb. simpl. rewrite (IH i (k + 1)%Z Hat). f_equal. lia.
Qed.

Lemma findIndex_found id items i o :
  Forall readable items -> todo_at id items i o ->
  findIndex (has_id id) items = Ok (Z.of_nat i).
Proof.
  intros Hread Hat. unfold findIndex.
  by rewrite (findIndex_from_found id items i o 0%Z).
Qed.

(** [splice(i, 1, x)] inside the array replaces the element at [i]. *)
Lemma splice_replace items i x :
  i < length items -> splice items (Z.of_nat i) 1 [x] = <[i:=x]> items.
Proof.
  intros Hlt. unfold splice.
  replace (Z.of_nat i <? 0)%Z with false by lia.
  replace (Z.min (Z.of_nat i) (Z.of_nat (length items))) with (Z.of_nat i) by lia.
  replace (Z.min (Z.max 1 0) (Z.of_nat (length items) - Z.of_nat i)) with 1%Z by lia.
  replace (Z.to_nat (Z.of_nat i + 1)) with (S i) by lia.
  rewrite Nat2Z.id. by rewrite insert_take_drop.
Qed.

(** [splice(i, 1)] inside the array removes the element at [i]. *)
Lemma splice_delete items i :
  i < length items -> splice items (Z.of_nat i) 1 [] = delete i items.
Proof.
  intros Hlt. unfold splice.
  replace (Z.of_nat i <? 0)%Z with false by lia.
  replace (Z.min (Z.of_nat i) (Z.of_nat (length items))) with (Z.of_nat i) by lia.
  replace (Z.min (Z.max 1 0) (Z.of_nat (length items) - Z.of_nat i)) with 1%Z by lia.
  replace (Z.to_nat (Z.of_nat i + 1)) with (S i) by lia.
  rewrite Nat2Z.id. by rewrite delete_take_drop.
Qed.

End Arrays.

(** ** The store *)

Section Store.
Implicit Types (id : string) (fs : Fs) (items : list Json) (o : object).

Lemma findById_found id fs items i o :
  document fs = Some (JArr items) -> Forall readable items ->
  todo_at id items i o ->
  findById id fs = (Ok (JObj o), fs).
Proof.
  intros Hdoc Hread Hat. unfold findById, bind, find, lift, resolve.
  rewrite Hdoc. simpl.
  by destruct (filter_items_found id items i o Hread Hat) as [kept ->].
Qed.

Lemma findById_absent id fs items :
  document fs = Some (JArr items) -> Forall readable items ->
  absent id items ->
  findById id fs = (Ok JNull, fs).
Proof.
  intros Hdoc Hread Habs. unfold findById, bind, find, lift, resolve.
  rewrite Hdoc. simpl. by rewrite filter_items_absent.
Qed.

(** [findById] never writes; when it resolves, the document is an array
    without [null], and the value is [null] or the first match. *)
Lemma findById_inv id fs r fs' :
  findById id fs = (r, fs') ->
  fs' = fs /\
  forall todo, r = Ok todo ->
    exists items, document fs = Some (JArr items) /\ Forall readable items /\
      ((todo = JNull /\ absent id items) \/
       (exists i o, todo = JObj o /\ todo_at id items i o)).
Proof.
  unfold findById, bind, find, lift, resolve.
  destruct (document fs) as [[| | | |items|]|] eqn:Hdoc; simpl;
    try (intros [= <- <-]; split; [done | intros ? [=]]).
  destruct (filter_items (has_id id) items) as [found|] eqn:Hfound;
    [|intros [= <- <-]; split; [done | intros ? [=]]].
  intros [= <- <-]. split; [done|]. intros todo [= <-].
  exists items. split_and!; [done | by eapply filter_items_Ok_readable |].
  destruct (filter_items_cases id items found Hfound)
    as [[-> Habs]|(i & o & kept & -> & Hat)]; [by left | right; by eauto].
Qed.

Lemma save_spec data fs items :
  document fs = Some (JArr items) ->
  save data fs =
    if writable fs
    then (Ok data, mkFs (Some (JArr (items ++ [data]))) true)
    else (Err StorageError, fs).
Proof.
  intros Hdoc. unfold save, bind, find, lift, writeFile, resolve.
  rewrite Hdoc. simpl. by destruct (writable fs).
Qed.

Lemma save_inv data fs r fs' :
  save data fs = (r, fs') ->
  fs' = fs \/
  exists items, document fs = Some (JArr items) /\ writable fs = true /\
    r = Ok data /\ fs' = mkFs (Some (JArr (items ++ [data]))) true.
Proof.
  destruct (document fs) as [[| | | |items|]|] eqn:Hdoc;
    try (unfold save, bind, find, lift; rewrite Hdoc; simpl;
         intros [= <- <-]; by left).
  rewrite (save_spec data fs items Hdoc).
  destruct (writable fs) eqn:Hw; intros [= <- <-]; [right; by eauto | by left].
Qed.

(** The merged record replaces the first match where it is. *)
Lemma updateByIdAndUpdate_found id update fs items i o :
  document fs = Some (JArr items) -> Forall readable items ->
  todo_at id items i o ->
  updateByIdAndUpdate id update fs =
    let merged := JObj (spread o (own_props update)) in
    if writable fs
    then (Ok merged, mkFs (Some (JArr (<[i:=merged]> items))) true)
    else (Err StorageError, fs).
Proof.
  intros Hdoc Hread Hat. unfold updateByIdAndUpdate, bind.
  rewrite (findById_found id fs items i o) by done. simpl.
  unfold find, lift, writeFile, resolve. rewrite Hdoc. simpl.
  rewrite (findIndex_found id items i o) by done.
  rewrite splice_replace by (by eapply todo_at_lt).
  by destruct (writable fs).
Qed.

Lemma updateByIdAndUpdate_inv id update fs r fs' :
  updateByIdAndUpdate id update fs = (r, fs') ->
  fs' = fs \/
  exists items i o, document fs = Some (JArr items) /\ Forall readable items /\
    writable fs = true /\ todo_at id items i o /\
    r = Ok (JObj (spread o (own_props update))) /\
    fs' = mkFs (Some (JArr (<[i:=JObj (spread o (own_props update))]> items))) true.
Proof.
  destruct (findById id fs) as [r0 fs0] eqn:Hfind.
  destruct (findById_inv id fs r0 fs0 Hfind) as [-> Hr0].
  destruct r0 as [todo|e].
  - destruct (Hr0 todo eq_refl)
      as (items & Hdoc & Hread & [[-> Habs]|(i & o & -> & Hat)]).
    + unfold updateByIdAndUpdate, bind. rewrite Hfind. simpl.
      intros [= <- <-]. by left.
    + rewrite (updateByIdAndUpdate_found id update fs items i o) by done.
      simpl. destruct (writable fs) eqn:Hw; intros [= <- <-]; [|by left].
      right. exists items, i, o. done.
  - unfold updateByIdAndUpdate, bind. rewrite Hfind.
    intros [= <- <-]. by left.
Qed.

(** The first match is removed, the others keep their order. *)
Lemma deleteById_found id fs items i o :
  document fs = Some (JArr items) -> Forall readable items ->
  todo_at id items i o ->
  deleteById id fs =
    if writable fs
    then (Ok tt, mkFs (Some (JArr (delete i items))) true)
    else (Err StorageError, fs).
Proof.
  intros Hdoc Hread Hat. unfold deleteById, bind.
  rewrite (findById_found id fs items i o) by done. simpl.
  unfold find, lift, writeFile, resolve. rewrite Hdoc. simpl.
  rewrite (findIndex_found id items i o) by done.
  rewrite splice_delete by (by eapply todo_at_lt).
  by destruct (writable fs).
Qed.

Lemma deleteById_inv id fs r fs' :
  deleteById id fs = (r, fs') ->
  (fs' = fs /\ exists e, r = Err e) \/
  exists items i o, document fs = Some (JArr items) /\ Forall readable items /\
    writable fs = true /\ todo_at id items i o /\
    r = Ok tt /\ fs' = mkFs (Some (JArr (delete i items))) true.
Proof.
  destruct (findById id fs) as [r0 fs0] eqn:Hfind.
  destruct (findById_inv id fs r0 fs0 Hfind) as [-> Hr0].
  destruct r0 as [todo|e].
  - destruct (Hr0 todo eq_refl)
      as (items & Hdoc & Hread & [[-> Habs]|(i & o & -> & Hat)]).
    + unfold deleteById, bind. rewrite Hfind. simpl.
      intros [= <- <-]. left. by eauto.
    + rewrite (deleteById_found id fs items i o) by done.
      destruct (writable fs) eqn:Hw; intros [= <- <-]; [|left; by eauto].
      right. exists items, i, o. done.
  - unfold deleteById, bind. rewrite Hfind.
    intros [= <- <-]. left. by eauto.
Qed.

End Store.

(** ** Controllers *)

Section Controllers.
Implicit Types (uuid id : string) (fs : Fs) (items : list Json) (o : object)
  (body : Json).

Lemma new_record_NoDup uuid body : NoDup (new_record uuid body).*1.
Proof. apply spread_NoDup. simpl. apply NoDup_singleton. Qed.

(** A declared key is not [id]. *)
Lemma valid_no_id schema body :
  valid schema body -> "id" ∉ schema.*1 -> "id" ∉ (own_props body).*1.
Proof.
  intros Hvalid Hschema Hin.
  destruct (valid_body_object schema body Hvalid) as (o & -> & Hdecl).
  by destruct (Hdecl "id" Hin).
Qed.

Lemma todoSchema_no_id : "id" ∉ todoSchema.*1.
Proof. simpl. rewrite !not_elem_of_cons. split_and!; try done. apply not_elem_of_nil. Qed.

Lemma updateTodoSchema_no_id : "id" ∉ updateTodoSchema.*1.
Proof. simpl. rewrite !not_elem_of_cons. split_and!; try done. apply not_elem_of_nil. Qed.

Lemma new_record_id uuid body :
  valid todoSchema body -> get_prop "id" (new_record uuid body) = Some (JStr uuid).
Proof.
  intros Hvalid. unfold new_record. rewrite get_spread_other; [done|].
  by eapply valid_no_id, todoSchema_no_id.
Qed.

Lemma createTodo_spec uuid body fs items :
  document fs = Some (JArr items) ->
  createTodo uuid body fs =
    if writable fs
    then (Ok (status_json 201 (JObj (new_record uuid body))),
          mkFs (Some (JArr (items ++ [JObj (new_record uuid body)]))) true)
    else (Err StorageError, fs).
Proof.
  intros Hdoc. unfold createTodo, bind.
  rewrite (save_spec _ fs items Hdoc). fold (new_record uuid body).
  destruct (writable fs); [|done]. unfold resolve. simpl.
  by rewrite spread_copy by apply new_record_NoDup.
Qed.

(** A valid POST /todos on a collection that can be read and written. *)
Lemma post_valid uuid body fs items :
  valid todoSchema body ->
  document fs = Some (JArr items) -> writable fs = true ->
  app uuid (POST_todos body) fs
  = (Ok (status_json 201 (JObj (new_record uuid body))),
     mkFs (Some (JArr (items ++ [JObj (new_record uuid body)]))) true).
Proof.
  intros Hvalid Hdoc Hw. unfold app. rewrite validateBody_valid by done.
  by rewrite (createTodo_spec uuid body fs items Hdoc), Hw.
Qed.


End Controllers.

(** * The claims *)

(** ** Create *)

(** C1. A body that passes the create schema and omits [completed] should be
    stored with [completed] false. Joi puts the default into the [value] it
    returns; [validateBody] drops that value and [createTodo] stores
    [req.body]. On the example of the header, the stored record and the body
    of the following GET have no [completed] at all. *)
Theorem C1_default_completed_is_not_stored :
  let fs' := after "u1" (POST_todos groceries) empty_store in
  valid todoSchema groceries /\
  get_prop "completed" (own_props (Joi.value (Joi.validate todoSchema groceries)))
    = Some (JBool false) /\
  document fs' = Some (JArr [groceries_record "u1"]) /\
  response "u2" (GET_todo "u1") fs' = Ok (send (groceries_record "u1")) /\
  get_prop "completed" (own_props (groceries_record "u1")) = None.
Proof. by vm_compute. Qed.

(** The same on every store and every such body. *)
Lemma create_omitting_completed uuid body fs items :
  valid todoSchema body ->
  get_prop "completed" (own_props body) = None ->
  document fs = Some (JArr items) -> writable fs = true ->
  document (after uuid (POST_todos body) fs)
    = Some (JArr (items ++ [JObj (new_record uuid body)])) /\
  get_prop "completed" (new_record uuid body) = None.
Proof.
  intros Hvalid Hnone Hdoc Hw. unfold after, app.
  rewrite validateBody_valid by done.
  rewrite (createTodo_spec uuid body fs items Hdoc), Hw. split; [done|].
  unfold new_record. rewrite get_spread_other by (by apply get_prop_None).
  done.
Qed.

(** C2, as the claim has it, fails on the example of the header: the body of
    the 201 response is not an object with the single key [id]. *)
Lemma C2_body_is_not_id_alone :
  valid todoSchema groceries /\
  forall v, response "u1" (POST_todos groceries) empty_store
            <> Ok (status_json 201 (JObj [("id", v)])).
Proof. split; [by vm_compute|]. intros v. vm_compute. by intros [=]. Qed.

(** C2, amended. For every body that passes the create schema, on a
    collection that can be read and written, POST /todos answers 201 and the
    body is the created record: the generated id followed by the fields of
    the request body. That record is appended to the collection. *)
Theorem C2_create_answers_201_with_record uuid body fs items :
  valid todoSchema body ->
  document fs = Some (JArr items) -> writable fs = true ->
  app uuid (POST_todos body) fs
    = (Ok (status_json 201 (JObj (new_record uuid body))),
       mkFs (Some (JArr (items ++ [JObj (new_record uuid body)]))) true)
  /\ get_prop "id" (new_record uuid body) = Some (JStr uuid).
Proof.
  intros Hvalid Hdoc Hw. split; [by apply post_valid | by apply new_record_id].
Qed.

Lemma C2_create_answers_201_with_record_witness :
  app "u1" (POST_todos groceries) empty_store
    = (Ok (status_json 201 (groceries_record "u1")), groceries_store "u1")
  /\ get_prop "id" (own_props (groceries_record "u1")) = Some (JStr "u1").
Proof.
  apply (C2_create_answers_201_with_record "u1" groceries empty_store []);
    by vm_compute.
Defined.

(** ** A document that cannot be read *)

(** C3, as the claim has it, fails for DELETE: without a document, the
    rejection of [find] is caught by the controller and answered 404. *)
Lemma C3_delete_answers_404 :
  document broken_store = None /\
  response "u1" (DELETE_todo "t1") broken_store = Ok (sendStatus 404) /\
  status (sendStatus 404) = 404.
Proof. by vm_compute. Qed.

(** C3, amended. Without a document, no request changes the file, and:
    GET /todos, GET /todos/:id and a POST /todos that passes validation
    reject with the storage error, which no handler catches; a PUT
    /todos/:id that passes validation and every DELETE /todos/:id catch it
    and answer 404. *)
Theorem C3_unreadable_document uuid req fs :
  document fs = None ->
  after uuid req fs = fs /\
  match req with
  | GET_todos | GET_todo _ => response uuid req fs = Err StorageError
  | POST_todos body =>
      valid todoSchema body -> response uuid req fs = Err StorageError
  | PUT_todo _ body =>
      valid updateTodoSchema body -> response uuid req fs = Ok (sendStatus 404)
  | DELETE_todo _ => response uuid req fs = Ok (sendStatus 404)
  | other_route => response uuid req fs = Ok no_route
  end.
Proof.
  intros Hdoc. unfold after, response.
  destruct req as [|id|body|id body|id|]; simpl.
  - unfold getAllTodos, bind, find. by rewrite Hdoc.
  - unfold getTodoById, findById, bind, find. by rewrite Hdoc.
  - destruct (valid_dec todoSchema body) as [Hvalid|(d & ds & Hd)].
    + rewrite validateBody_valid by done.
      unfold createTodo, save, bind, find. by rewrite Hdoc.
    + rewrite (validateBody_invalid _ _ _ d ds) by done. split; [done|].
      unfold valid. by rewrite Hd.
  - destruct (valid_dec updateTodoSchema body) as [Hvalid|(d & ds & Hd)].
    + rewrite validateBody_valid by done.
      unfold updateTodo, try_catch, updateByIdAndUpdate, findById, bind, find.
      by rewrite Hdoc.
    + rewrite (validateBody_invalid _ _ _ d ds) by done. split; [done|].
      unfold valid. by rewrite Hd.
  - unfold deleteTodo, try_catch, deleteById, findById, bind, find.
    by rewrite Hdoc.
  - done.
Qed.

Lemma C3_unreadable_document_witness :
  after "u1" (POST_todos groceries) broken_store = broken_store /\
  response "u1" (POST_todos groceries) broken_store = Err StorageError.
Proof.
  destruct (C3_unreadable_document "u1" (POST_todos groceries) broken_store)
    as [Hsame Hresp]; [reflexivity|].
  split; [exact Hsame | apply Hresp; by vm_compute].
Defined.

(** ** Validation *)

(** C4, as the claim has it, fails: a PUT whose body has the undeclared key
    [priority] is answered 400, and the record is not touched. *)
Lemma C4_unknown_field_is_rejected :
  let fs := groceries_store "t1" in
  let req := PUT_todo "t1" (JObj [("priority", JNum 1)]) in
  app "u1" req fs
  = (Ok (status_json 400
           (JObj [("error", JStr (Joi.message (Joi.object_unknown "priority")))])),
     fs).
Proof. by vm_compute. Qed.

(** C4, amended. A PUT /todos/:id whose body has a key other than [title],
    [description], [completed] and [__proto__] does not reach the update: the
    validator answers 400 with the message of the first violated constraint,
    and the file is left as it was. *)
Theorem C4_update_rejects_unknown_field uuid id o k fs :
  k ∈ o.*1 -> k ∉ ["title"; "description"; "completed"] ->
  k <> "__proto__" ->
  exists d,
    app uuid (PUT_todo id (JObj o)) fs
    = (Ok (status_json 400 (JObj [("error", JStr (Joi.message d))])), fs).
Proof.
  intros Hin Hnotin Hproto.
  destruct (unknown_key_rejected updateTodoSchema o k Hin) as (d & ds & Hd).
  - simpl. rewrite !not_elem_of_cons in Hnotin. rewrite !not_elem_of_cons.
    tauto.
  - done.
  - exists d. simpl. by rewrite (validateBody_invalid _ _ _ d ds).
Qed.

Lemma C4_update_rejects_unknown_field_witness :
  exists d,
    app "u1" (PUT_todo "t1" (JObj [("priority", JNum 1)])) (groceries_store "t1")
    = (Ok (status_json 400 (JObj [("error", JStr (Joi.message d))])),
       groceries_store "t1").
Proof.
  apply (C4_update_rejects_unknown_field "u1" "t1" _ "priority").
  - apply list_elem_of_here.
  - rewrite !not_elem_of_cons. split_and!; try done. apply not_elem_of_nil.
  - done.
Defined.

(** The key [__proto__] is the exception: Joi's clone does not have it, so
    the validator does not see it, and the update merges it into the record
    as an own property. *)
Lemma proto_field_is_merged uuid id v fs items i o :
  document fs = Some (JArr items) -> Forall readable items ->
  writable fs = true -> todo_at id items i o ->
  valid updateTodoSchema (JObj [("__proto__", JObj [("admin", v)])]) /\
  app uuid (PUT_todo id (JObj [("__proto__", JObj [("admin", v)])])) fs
  = (Ok (status_json 200 (JObj [("id", JStr id)])),
     mkFs (Some (JArr (<[i:=JObj (set_prop "__proto__" (JObj [("admin", v)]) o)]>
                         items))) true).
Proof.
  intros Hdoc Hread Hw Hat. split; [done|].
  unfold app. rewrite validateBody_valid by done.
  unfold updateTodo, try_catch, bind.
  rewrite (updateByIdAndUpdate_found id _ fs items i o), Hw by done.
  simpl. rewrite get_set_ne by done.
  destruct Hat as (_ & -> & _). done.
Qed.

(** The merge itself takes any field: it is the validator in front of it
    that turns the request down. *)
Lemma merge_takes_any_field id fs items i o k v :
  document fs = Some (JArr items) -> Forall readable items ->
  writable fs = true -> todo_at id items i o ->
  updateByIdAndUpdate id (JObj [(k, v)]) fs
  = (Ok (JObj (set_prop k v o)),
     mkFs (Some (JArr (<[i:=JObj (set_prop k v o)]> items))) true).
Proof.
  intros Hdoc Hread Hw Hat.
  by rewrite (updateByIdAndUpdate_found id _ fs items i o), Hw.
Qed.

(** *** Messages *)

Section Messages.
Implicit Types (k t : string) (d : Joi.Detail).





End Messages.



(** A body in which Joi sees no [title], own or inherited, fails on [title]
    first, whatever else it has. *)
Lemma missing_title_message uuid o fs :
  seen "title" o = None ->
  app uuid (POST_todos (JObj o)) fs
  = (Ok (status_json 400
           (JObj [("error", JStr (Joi.message (Joi.any_required "title")))])),
     fs).
Proof.
  intros Hnone. rewrite <- item_seen in Hnone by done.
  simpl. unfold validateBody, Joi.validate. simpl.
  fold (Joi.item "title" o). by rewrite Hnone.
Qed.

(** ** Identifiers *)

Lemma createTodo_writes uuid body fs :
  (createTodo uuid body fs).2 = fs \/
  exists items, document fs = Some (JArr items) /\
    (createTodo uuid body fs).2
    = mkFs (Some (JArr (items ++ [JObj (new_record uuid body)]))) true.
Proof.
  unfold createTodo, bind. fold (new_record uuid body).
  destruct (save (JObj (new_record uuid body)) fs) as [r fs'] eqn:Hsave.
  apply save_inv in Hsave as [->|(items & Hdoc & Hw & -> & ->)].
  - left. by destruct r.
  - right. by exists items.
Qed.

(** An update that passed validation leaves every [id] of the collection
    where it was. *)
Lemma updateTodo_keeps_ids id update fs :
  valid updateTodoSchema update ->
  stored_ids (updateTodo id update fs).2 = stored_ids fs.
Proof.
  intros Hvalid. unfold updateTodo, try_catch, bind.
  destruct (updateByIdAndUpdate id update fs) as [r fs'] eqn:Hupd.
  apply updateByIdAndUpdate_inv in Hupd
    as [->|(items & i & o & Hdoc & Hread & Hw & Hat & -> & ->)].
  - by destruct r.
  - simpl. unfold stored_ids. rewrite Hdoc. simpl. f_equal.
    rewrite list_fmap_insert. apply list_insert_id.
    rewrite list_lookup_fmap. destruct Hat as (-> & _ & _). simpl. f_equal.
    symmetry. apply get_spread_other.
    by eapply valid_no_id, updateTodoSchema_no_id.
Qed.

(** C5. Whatever the body of a POST /todos is, either nothing is written or
    the record appended to the collection carries the id [uuidv4()] returned
    in that call; and no PUT /todos/:id, whatever its body, changes the [id]
    of any record of the collection. *)
Theorem C5_id_is_generated_and_kept uuid body fs :
  (after uuid (POST_todos body) fs = fs \/
   exists items,
     document fs = Some (JArr items) /\
     document (after uuid (POST_todos body) fs)
     = Some (JArr (items ++ [JObj (new_record uuid body)])) /\
     get_prop "id" (new_record uuid body) = Some (JStr uuid))
  /\
  (forall uuid' id update,
     stored_ids (after uuid' (PUT_todo id update) fs) = stored_ids fs).
Proof.
  split.
  - unfold after. simpl.
    destruct (valid_dec todoSchema body) as [Hvalid|(d & ds & Hd)].
    + rewrite validateBody_valid by done.
      destruct (createTodo_writes uuid body fs) as [->|(items & Hdoc & ->)];
        [by left|].
      right. exists items. split_and!; [done..|]. by apply new_record_id.
    + left. by rewrite (validateBody_invalid _ _ _ d ds).
  - intros uuid' id update. unfold after. simpl.
    destruct (valid_dec updateTodoSchema update) as [Hvalid|(d & ds & Hd)].
    + rewrite validateBody_valid by done. by apply updateTodo_keeps_ids.
    + by rewrite (validateBody_invalid _ _ _ d ds).
Qed.

(** ** Update *)

(** C6. A PUT /todos/:id whose body is [{completed: v}], on the first
    record [o] with that id, at position [i]: when [v] passes the update
    schema the answer is 200 and the collection is the same array with
    [completed] set to [v] in the record at [i]; when it does not, nothing is
    written. Setting [completed] leaves every other field of the record as
    it was. *)
Theorem C6_update_completed_only uuid id v fs items i o :
  document fs = Some (JArr items) -> Forall readable items ->
  writable fs = true -> todo_at id items i o ->
  let req := PUT_todo id (JObj [("completed", v)]) in
  (valid updateTodoSchema (JObj [("completed", v)]) ->
   app uuid req fs
   = (Ok (status_json 200 (JObj [("id", JStr id)])),
      mkFs (Some (JArr (<[i:=JObj (set_prop "completed" v o)]> items))) true))
  /\ (~ valid updateTodoSchema (JObj [("completed", v)]) ->
      after uuid req fs = fs)
  /\ (forall k, k <> "completed" ->
        get_prop k (set_prop "completed" v o) = get_prop k o)
  /\ get_prop "completed" (set_prop "completed" v o) = Some v.
Proof.
  intros Hdoc Hread Hw Hat req. split_and!.
  - intros Hvalid. unfold req, app. rewrite validateBody_valid by done.
    unfold updateTodo, try_catch, bind.
    rewrite (updateByIdAndUpdate_found id _ fs items i o), Hw by done.
    simpl. rewrite get_set_ne by done.
    destruct Hat as (_ & -> & _). done.
  - intros Hinvalid. unfold after, req, app.
    destruct (valid_dec updateTodoSchema (JObj [("completed", v)]))
      as [Hvalid|(d & ds & Hd)]; [done|].
    by rewrite (validateBody_invalid _ _ _ d ds).
  - intros k Hk. by apply get_set_ne.
  - apply get_set_eq.
Qed.

Lemma C6_update_completed_only_witness :
  let done_record :=
    JObj [("id", JStr "t1"); ("title", JStr "Buy groceries");
          ("description", JStr "I should buy groceries");
          ("completed", JBool true)] in
  app "u1" (PUT_todo "t1" (JObj [("completed", JBool true)])) (groceries_store "t1")
  = (Ok (status_json 200 (JObj [("id", JStr "t1")])),
     mkFs (Some (JArr [done_record])) true).
Proof.
  refine (proj1 (C6_update_completed_only "u1" "t1" (JBool true)
                   (groceries_store "t1") [groceries_record "t1"] 0
                   (own_props (groceries_record "t1")) _ _ _ _) _).
  - reflexivity.
  - repeat constructor. discriminate.
  - reflexivity.
  - apply todo_at_here. split; reflexivity.
  - reflexivity.
Defined.

(** C10. A PUT /todos/:id with the body [{}], for an id the collection has:
    the body passes the update schema, the answer is 200 with [{id}], and
    the file is exactly what it was. *)
Theorem C10_empty_update_is_identity uuid id fs items i o :
  document fs = Some (JArr items) -> Forall readable items ->
  writable fs = true -> todo_at id items i o ->
  valid updateTodoSchema (JObj []) /\
  app uuid (PUT_todo id (JObj [])) fs
  = (Ok (status_json 200 (JObj [("id", JStr id)])), fs).
Proof.
  intros Hdoc Hread Hw Hat. split; [done|].
  unfold app. rewrite validateBody_valid by done.
  unfold updateTodo, try_catch, bind.
  rewrite (updateByIdAndUpdate_found id _ fs items i o), Hw by done.
  simpl. destruct Hat as (Hlook & -> & _). simpl.
  rewrite list_insert_id by done.
  destruct fs as [doc w]. simpl in *. by subst.
Qed.

Lemma C10_empty_update_is_identity_witness :
  valid updateTodoSchema (JObj []) /\
  app "u1" (PUT_todo "t1" (JObj [])) (groceries_store "t1")
  = (Ok (status_json 200 (JObj [("id", JStr "t1")])), groceries_store "t1").
Proof.
  apply (C10_empty_update_is_identity "u1" "t1" (groceries_store "t1")
           [groceries_record "t1"] 0 (own_props (groceries_record "t1"))).
  - reflexivity.
  - repeat constructor. discriminate.
  - reflexivity.
  - apply todo_at_here. split; reflexivity.
Defined.

(** ** The collection stays keyed by id *)

Section Keyed.
Implicit Types (id uuid : string) (fs : Fs) (items : list Json) (x y : Json).

Lemma at_most_one_snoc id items x :
  at_most_one id items ->
  (has_id id x = Ok true -> absent id items) ->
  at_most_one id (items ++ [x]).
Proof.
  intros Huniq Hnew p q a b Hp Hq Ha Hb.
  apply lookup_snoc_Some in Hp as [[_ Hp]|[-> <-]];
    apply lookup_snoc_Some in Hq as [[_ Hq]|[-> <-]].
  - by eapply Huniq.
  - destruct (Hnew Hb a); [by eapply list_elem_of_lookup_2 | done].
  - destruct (Hnew Ha b); [by eapply list_elem_of_lookup_2 | done].
  - done.
Qed.

Lemma at_most_one_insert id items i x y :
  items !! i = Some x -> has_id id y = has_id id x ->
  at_most_one id items -> at_most_one id (<[i:=y]> items).
Proof.
  intros Hx Hsame Huniq p q a b Hp Hq Ha Hb.
  assert (Hold : forall r c, <[i:=y]> items !! r = Some c ->
            has_id id c = Ok true ->
            exists c', items !! r = Some c' /\ has_id id c' = Ok true).
  { intros r c Hr Hc.
    apply list_lookup_insert_Some in Hr as [(-> & <- & _)|[_ Hr]].
    - exists x. split; [done | congruence].
    - by exists c. }
  destruct (Hold p a Hp Ha) as (a' & Hp' & Ha').
  destruct (Hold q b Hq Hb) as (b' & Hq' & Hb').
  by eapply Huniq.
Qed.

Lemma at_most_one_delete id items i :
  at_most_one id items -> at_most_one id (delete i items).
Proof.
  intros Huniq p q a b Hp Hq Ha Hb.
  rewrite list_lookup_delete in Hp, Hq.
  pose proof (Huniq _ _ a b Hp Hq Ha Hb).
  repeat case_decide; lia.
Qed.

(** Once the first record with an id is gone, none is left when there was
    one at most. *)
Lemma delete_absent id items i o :
  at_most_one id items -> todo_at id items i o -> absent id (delete i items).
Proof.
  intros Huniq (Hlook & Hid & _) x Hx Htrue.
  apply list_elem_of_lookup in Hx as [j Hj].
  rewrite list_lookup_delete in Hj.
  assert (Ho : has_id id (JObj o) = Ok true) by (apply has_id_true; eauto).
  pose proof (Huniq _ _ x (JObj o) Hj Hlook Htrue Ho).
  case_decide; lia.
Qed.

Lemma getAllTodos_reads fs : (getAllTodos fs).2 = fs.
Proof. unfold getAllTodos, bind, find. by destruct (document fs). Qed.

Lemma getTodoById_reads id fs : (getTodoById id fs).2 = fs.
Proof.
  unfold getTodoById, bind.
  destruct (findById id fs) as [r fs'] eqn:Hfind.
  apply findById_inv in Hfind as [-> _].
  destruct r as [todo|]; [|done]. by destruct (truthy todo).
Qed.

Lemma deleteTodo_writes id fs :
  ((deleteTodo id fs).2 = fs /\ (deleteTodo id fs).1 = Ok (sendStatus 404)) \/
  exists items i o, document fs = Some (JArr items) /\ Forall readable items /\
    todo_at id items i o /\
    deleteTodo id fs
    = (Ok (sendStatus 200), mkFs (Some (JArr (delete i items))) true).
Proof.
  unfold deleteTodo, try_catch, bind.
  destruct (deleteById id fs) as [r fs'] eqn:Hdel.
  apply deleteById_inv in Hdel
    as [[-> [e ->]]|(items & i & o & Hdoc & Hread & Hw & Hat & -> & ->)].
  - by left.
  - right. by exists items, i, o.
Qed.

(** One request keeps the collection keyed by id, when the identifier
    generated in it is new. *)
Lemma keyed_by_id_step uuid req fs :
  keyed_by_id fs -> fresh uuid fs -> keyed_by_id (after uuid req fs).
Proof.
  intros Hkeyed Hfresh. unfold after.
  destruct req as [|id|body|id body|id|]; simpl.
  - by rewrite getAllTodos_reads.
  - by rewrite getTodoById_reads.
  - destruct (valid_dec todoSchema body) as [Hvalid|(d & ds & Hd)];
      [|by rewrite (validateBody_invalid _ _ _ d ds)].
    rewrite validateBody_valid by done.
    destruct (createTodo_writes uuid body fs) as [->|(items & Hdoc & ->)];
      [done|].
    intros items' [= <-] id. apply at_most_one_snoc; [by apply Hkeyed|].
    intros (o & [= <-] & Hid)%has_id_true.
    rewrite new_record_id in Hid by done. injection Hid as <-.
    by apply Hfresh.
  - destruct (valid_dec updateTodoSchema body) as [Hvalid|(d & ds & Hd)];
      [|by rewrite (validateBody_invalid _ _ _ d ds)].
    rewrite validateBody_valid by done.
    unfold updateTodo, try_catch, bind.
    destruct (updateByIdAndUpdate id body fs) as [r fs'] eqn:Hupd.
    apply updateByIdAndUpdate_inv in Hupd
      as [->|(items & i & o & Hdoc & Hread & Hw & Hat & -> & ->)];
      [by destruct r|].
    simpl. intros items' [= <-] id'.
    destruct Hat as (Hlook & _ & _).
    eapply at_most_one_insert; [done| |by apply Hkeyed].
    unfold has_id. simpl. rewrite get_spread_other; [done|].
    by eapply valid_no_id, updateTodoSchema_no_id.
  - destruct (deleteTodo_writes id fs)
      as [[-> _]|(items & i & o & Hdoc & _ & _ & ->)]; [done|].
    simpl. intros items' [= <-] id'. by apply at_most_one_delete, Hkeyed.
  - done.
Qed.

(** So does every sequence of requests. *)
Lemma keyed_by_id_run steps fs :
  keyed_by_id fs -> fresh_run steps fs -> keyed_by_id (run steps fs).
Proof.
  revert fs. induction steps as [|[uuid req] steps IH]; intros fs Hkeyed;
    simpl; [done|].
  intros [Hfresh Hrest]. apply IH; [by apply keyed_by_id_step | done].
Qed.

End Keyed.

(** ** Delete, then get *)

(** C8. In a collection where at most one record has the id (no two records
    share an id), a DELETE /todos/:id that is answered 200 removes that
    record, and the GET /todos/:id that follows is answered 404. *)
Theorem C8_get_after_delete_is_404 uuid uuid' id fs items :
  document fs = Some (JArr items) -> at_most_one id items ->
  response uuid (DELETE_todo id) fs = Ok (sendStatus 200) ->
  let fs' := after uuid (DELETE_todo id) fs in
  (exists i o, todo_at id items i o /\
               document fs' = Some (JArr (delete i items))) /\
  response uuid' (GET_todo id) fs' = Ok (sendStatus 404).
Proof.
  intros Hdoc Huniq. unfold response, after. simpl.
  destruct (deleteTodo_writes id fs)
    as [[_ ->]|(items' & i & o & Hdoc' & Hread & Hat & ->)]; [done|].
  intros _. simpl. rewrite Hdoc in Hdoc'. injection Hdoc' as <-.
  split; [by exists i, o|].
  unfold getTodoById, bind.
  rewrite (findById_absent id _ (delete i items)).
  - done.
  - done.
  - by apply Forall_delete.
  - by eapply delete_absent.
Qed.

Lemma C8_get_after_delete_is_404_witness :
  let fs' := after "u1" (DELETE_todo "t1") (groceries_store "t1") in
  (exists i o, todo_at "t1" [groceries_record "t1"] i o /\
               document fs' = Some (JArr (delete i [groceries_record "t1"]))) /\
  response "u2" (GET_todo "t1") fs' = Ok (sendStatus 404).
Proof.
  apply (C8_get_after_delete_is_404 "u1" "u2" "t1" (groceries_store "t1")
           [groceries_record "t1"]).
  - reflexivity.
  - intros [|i] [|j] x y Hi Hj _ _; simpl in *; done.
  - reflexivity.
Defined.

(** The hypothesis cannot be dropped: with two records under one id, DELETE
    removes the first and GET finds the second. *)
Lemma get_after_delete_with_shared_id :
  let fs := mkFs (Some (JArr [groceries_record "t1"; groceries_record "t1"])) true in
  app "u1" (DELETE_todo "t1") fs = (Ok (sendStatus 200), groceries_store "t1") /\
  response "u2" (GET_todo "t1") (groceries_store "t1")
  = Ok (send (groceries_record "t1")).
Proof. by vm_compute. Qed.

(** ** Create, then get *)





(** * Further properties of the server *)

(** ** Ids the collection does not have *)

(** X1. GET /todos/:id for an id no record of a readable collection has is
    answered 404, and the file is not touched. *)
Theorem X1_get_absent_id_is_404 uuid id fs items :
  document fs = Some (JArr items) -> Forall readable items ->
  absent id items ->
  app uuid (GET_todo id) fs = (Ok (sendStatus 404), fs).
Proof.
  intros Hdoc Hread Habs. simpl. unfold getTodoById, bind.
  by rewrite (findById_absent id fs items).
Qed.

Lemma X1_get_absent_id_is_404_witness :
  app "u1" (GET_todo "t2") (groceries_store "t1")
  = (Ok (sendStatus 404), groceries_store "t1").
Proof.
  apply (X1_get_absent_id_is_404 "u1" "t2" _ [groceries_record "t1"]).
  - reflexivity.
  - repeat constructor. discriminate.
  - intros x ->%list_elem_of_singleton. vm_compute. discriminate.
Defined.

(** X2. PUT /todos/:id with a valid body, for an id no record of a readable
    collection has, is answered 404, and the file is not touched. *)
Theorem X2_put_absent_id_is_404 uuid id body fs items :
  valid updateTodoSchema body ->
  document fs = Some (JArr items) -> Forall readable items ->
  absent id items ->
  app uuid (PUT_todo id body) fs = (Ok (sendStatus 404), fs).
Proof.
  intros Hvalid Hdoc Hread Habs. simpl. rewrite validateBody_valid by done.
  unfold updateTodo, try_catch, updateByIdAndUpdate, bind.
  by rewrite (findById_absent id fs items).
Qed.

Lemma X2_put_absent_id_is_404_witness :
  app "u1" (PUT_todo "t2" (JObj [("completed", JBool true)])) (groceries_store "t1")
  = (Ok (sendStatus 404), groceries_store "t1").
Proof.
  apply (X2_put_absent_id_is_404 "u1" "t2" _ _ [groceries_record "t1"]).
  - reflexivity.
  - reflexivity.
  - repeat constructor. discriminate.
  - intros x ->%list_elem_of_singleton. vm_compute. discriminate.
Defined.

(** X3. DELETE /todos/:id for an id no record of a readable collection has
    is answered 404, and the file is not touched. *)
Theorem X3_delete_absent_id_is_404 uuid id fs items :
  document fs = Some (JArr items) -> Forall readable items ->
  absent id items ->
  app uuid (DELETE_todo id) fs = (Ok (sendStatus 404), fs).
Proof.
  intros Hdoc Hread Habs. simpl.
  unfold deleteTodo, try_catch, deleteById, bind.
  by rewrite (findById_absent id fs items).
Qed.

Lemma X3_delete_absent_id_is_404_witness :
  app "u1" (DELETE_todo "t2") (groceries_store "t1")
  = (Ok (sendStatus 404), groceries_store "t1").
Proof.
  apply (X3_delete_absent_id_is_404 "u1" "t2" _ [groceries_record "t1"]).
  - reflexivity.
  - repeat constructor. discriminate.
  - intros x ->%list_elem_of_singleton. vm_compute. discriminate.
Defined.

(** ** Delete *)

(** X4. DELETE /todos/:id on a readable, writable collection that has the
    id is answered 200; the first record with that id is removed and the
    other elements keep their order. *)
Theorem X4_delete_removes_first_match uuid id fs items i o :
  document fs = Some (JArr items) -> Forall readable items ->
  writable fs = true -> todo_at id items i o ->
  app uuid (DELETE_todo id) fs
  = (Ok (sendStatus 200), mkFs (Some (JArr (take i items ++ drop (S i) items))) true).
Proof.
  intros Hdoc Hread Hw Hat. simpl. unfold deleteTodo, try_catch, bind.
  rewrite (deleteById_found id fs items i o), Hw by done.
  by rewrite delete_take_drop.
Qed.

Lemma X4_delete_removes_first_match_witness :
  app "u1" (DELETE_todo "t1")
    (mkFs (Some (JArr [groceries_record "t0"; groceries_record "t1";
                       groceries_record "t1"])) true)
  = (Ok (sendStatus 200),
     mkFs (Some (JArr [groceries_record "t0"; groceries_record "t1"])) true).
Proof.
  apply (X4_delete_removes_first_match "u1" "t1" _
           [groceries_record "t0"; groceries_record "t1"; groceries_record "t1"]
           1 (own_props (groceries_record "t1"))).
  - reflexivity.
  - repeat constructor; discriminate.
  - reflexivity.
  - apply todo_at_later. split; [by vm_compute|].
    apply todo_at_here. split; reflexivity.
Defined.

(** ** A file that is there but wrong *)

Lemma filter_items_null id items :
  JNull ∈ items -> filter_items (has_id id) items = Err TypeError.
Proof.
  induction items as [|x items IH]; [by intros ?%elem_of_nil|].
  intros [<-|Hin]%elem_of_cons; [done|]. simpl.
  destruct x; simpl; try done; by rewrite IH.
Qed.

Lemma findById_null id fs items :
  document fs = Some (JArr items) -> JNull ∈ items ->
  findById id fs = (Err TypeError, fs).
Proof.
  intros Hdoc Hnull. unfold findById, bind, find, lift. rewrite Hdoc. simpl.
  by rewrite filter_items_null.
Qed.

Lemma findById_not_array id fs j :
  document fs = Some j -> as_array j = Err TypeError ->
  findById id fs = (Err TypeError, fs).
Proof.
  intros Hdoc Hj. unfold findById, bind, find, lift. rewrite Hdoc. simpl.
  by rewrite Hj.
Qed.

(** X5. When the file cannot be written, nothing changes, and the failure
    shows differently by route: a valid POST /todos rejects with the storage
    error and no response; a valid PUT and a DELETE on an id the collection
    has are answered 404, as if the id were unknown. *)
Theorem X5_write_failure uuid id create update fs items i o :
  document fs = Some (JArr items) -> Forall readable items ->
  writable fs = false -> todo_at id items i o ->
  valid todoSchema create -> valid updateTodoSchema update ->
  app uuid (POST_todos create) fs = (Err StorageError, fs) /\
  app uuid (PUT_todo id update) fs = (Ok (sendStatus 404), fs) /\
  app uuid (DELETE_todo id) fs = (Ok (sendStatus 404), fs).
Proof.
  intros Hdoc Hread Hw Hat Hcreate Hupdate. simpl.
  rewrite !validateBody_valid by done. split_and!.
  - by rewrite (createTodo_spec uuid create fs items Hdoc), Hw.
  - unfold updateTodo, try_catch, bind.
    by rewrite (updateByIdAndUpdate_found id _ fs items i o), Hw.
  - unfold deleteTodo, try_catch, bind.
    by rewrite (deleteById_found id fs items i o), Hw.
Qed.

Lemma X5_write_failure_witness :
  let fs := read_only_store "t1" in
  app "u1" (POST_todos groceries) fs = (Err StorageError, fs) /\
  app "u1" (PUT_todo "t1" (JObj [("completed", JBool true)])) fs
  = (Ok (sendStatus 404), fs) /\
  app "u1" (DELETE_todo "t1") fs = (Ok (sendStatus 404), fs).
Proof.
  apply (X5_write_failure "u1" "t1" _ _ _ [groceries_record "t1"] 0
           (own_props (groceries_record "t1"))).
  - reflexivity.
  - repeat constructor. discriminate.
  - reflexivity.
  - apply todo_at_here. split; reflexivity.
  - reflexivity.
  - reflexivity.
Defined.

(** X6. One [null] anywhere in the array breaks every lookup by id, also
    for the ids of the records before it: GET /todos/:id rejects with a type
    error and no response, a valid PUT and a DELETE are answered 404, and
    nothing is written. *)
Theorem X6_null_element uuid id update fs items :
  document fs = Some (JArr items) -> JNull ∈ items ->
  valid updateTodoSchema update ->
  app uuid (GET_todo id) fs = (Err TypeError, fs) /\
  app uuid (PUT_todo id update) fs = (Ok (sendStatus 404), fs) /\
  app uuid (DELETE_todo id) fs = (Ok (sendStatus 404), fs).
Proof.
  intros Hdoc Hnull Hvalid. simpl. rewrite validateBody_valid by done.
  unfold getTodoById, updateTodo, deleteTodo, try_catch,
    updateByIdAndUpdate, deleteById, bind.
  by rewrite (findById_null id fs items).
Qed.

Lemma X6_null_element_witness :
  let fs := store_with_null "t1" in
  app "u1" (GET_todo "t1") fs = (Err TypeError, fs) /\
  app "u1" (PUT_todo "t1" (JObj [])) fs = (Ok (sendStatus 404), fs) /\
  app "u1" (DELETE_todo "t1") fs = (Ok (sendStatus 404), fs).
Proof.
  apply (X6_null_element "u1" "t1" _ _ [groceries_record "t1"; JNull]).
  - reflexivity.
  - apply list_elem_of_further, list_elem_of_here.
  - reflexivity.
Defined.

(** X7. When the document is JSON but not an array: GET /todos/:id and a
    valid POST /todos reject with a type error and no response, a valid PUT
    and a DELETE are answered 404, and nothing is written; when the document
    is an object, GET /todos sends it as it is, with status 200. *)
Theorem X7_document_not_an_array uuid id create update fs j :
  document fs = Some j -> as_array j = Err TypeError ->
  valid todoSchema create -> valid updateTodoSchema update ->
  (forall o, j = JObj o ->
     app uuid GET_todos fs = (Ok (send j), fs) /\ status (send j) = 200) /\
  app uuid (GET_todo id) fs = (Err TypeError, fs) /\
  app uuid (POST_todos create) fs = (Err TypeError, fs) /\
  app uuid (PUT_todo id update) fs = (Ok (sendStatus 404), fs) /\
  app uuid (DELETE_todo id) fs = (Ok (sendStatus 404), fs).
Proof.
  intros Hdoc Hj Hcreate Hupdate. split.
  { intros o ->. simpl. unfold getAllTodos, bind, find, lift.
    by rewrite Hdoc. }
  simpl. rewrite !validateBody_valid by done.
  unfold getTodoById, createTodo, save, updateTodo, deleteTodo,
    try_catch, updateByIdAndUpdate, deleteById, bind.
  rewrite (findById_not_array id fs j) by done.
  unfold find, lift. rewrite Hdoc. simpl. by rewrite Hj.
Qed.

Lemma X7_document_not_an_array_witness :
  let fs := object_store in
  (app "u1" GET_todos fs = (Ok (send (JObj [])), fs) /\
   status (send (JObj [])) = 200) /\
  app "u1" (GET_todo "t1") fs = (Err TypeError, fs) /\
  app "u1" (POST_todos groceries) fs = (Err TypeError, fs) /\
  app "u1" (PUT_todo "t1" (JObj [])) fs = (Ok (sendStatus 404), fs) /\
  app "u1" (DELETE_todo "t1") fs = (Ok (sendStatus 404), fs).
Proof.
  destruct (X7_document_not_an_array "u1" "t1" groceries (JObj []) object_store
              (JObj [])) as (Hget & Hrest); [reflexivity..|].
  split; [by apply (Hget []) | exact Hrest].
Defined.

(** ** Update is a merge *)

Section Merge.
Implicit Types (k id : string) (v : Json) (o t s : object) (items : list Json).

Lemma set_prop_same k v o : get_prop k o = Some v -> set_prop k v o = o.
Proof.
  induction o as [|[k' v'] o IH]; simpl; [done|].
  destruct (decide (k' = k)) as [->|Hne].
  - by intros [= ->].
  - intros Hget. by rewrite IH.
Qed.

Lemma get_prop_elem k v o : NoDup o.*1 -> (k, v) ∈ o -> get_prop k o = Some v.
Proof.
  induction o as [|[k' v'] o IH]; simpl; [by intros _ ?%elem_of_nil|].
  intros [Hk' Hnd]%NoDup_cons [[= -> ->]|Hin]%elem_of_cons.
  - by rewrite decide_True.
  - rewrite decide_False; [by apply IH|].
    intros ->. apply Hk'. by apply (list_elem_of_fmap_2 fst o (k, v)).
Qed.

(** Copying properties an object already has, with the values it has. *)
Lemma spread_fixed t s :
  (forall k v, (k, v) ∈ s -> get_prop k t = Some v) -> spread t s = t.
Proof.
  unfold spread. induction s as [|[k v] s IH]; intros Hs; simpl; [done|].
  rewrite set_prop_same by apply Hs, list_elem_of_here.
  apply IH. intros k' v' Hin. by apply Hs, list_elem_of_further.
Qed.

(** Merging the same object twice is merging it once. *)
Lemma spread_twice t s : NoDup s.*1 -> spread (spread t s) s = spread t s.
Proof.
  intros Hnd. apply spread_fixed. intros k v Hin.
  apply get_spread_source; [done | by apply get_prop_elem].
Qed.

Lemma todo_at_insert id items i o m :
  todo_at id items i o -> get_prop "id" m = Some (JStr id) ->
  todo_at id (<[i:=JObj m]> items) i m.
Proof.
  intros (Hlook & _ & Hfirst) Hid. split_and!; [|done|].
  - apply list_lookup_insert_eq. by eapply lookup_lt_Some.
  - intros j y Hj Hy. rewrite list_lookup_insert_ne in Hy by lia.
    by eapply Hfirst.
Qed.

Lemma todo_at_app id items i o rest :
  todo_at id items i o -> todo_at id (items ++ rest) i o.
Proof.
  intros (Hlook & Hid & Hfirst). split_and!; [by apply lookup_app_l_Some | done |].
  intros j y Hj Hy. apply lookup_lt_Some in Hlook as Hlt.
  rewrite lookup_app_l in Hy by lia. by eapply Hfirst.
Qed.

Lemma merged_id id o update :
  valid updateTodoSchema update -> get_prop "id" o = Some (JStr id) ->
  get_prop "id" (spread o (own_props update)) = Some (JStr id).
Proof.
  intros Hvalid Hid. rewrite get_spread_other; [done|].
  by eapply valid_no_id, updateTodoSchema_no_id.
Qed.

(** A valid PUT on a collection that can be read and written and has the
    id. *)
Lemma put_valid uuid id update fs items i o :
  valid updateTodoSchema update ->
  document fs = Some (JArr items) -> Forall readable items ->
  writable fs = true -> todo_at id items i o ->
  app uuid (PUT_todo id update) fs
  = (Ok (status_json 200 (JObj [("id", JStr id)])),
     mkFs (Some (JArr (<[i:=JObj (spread o (own_props update))]> items))) true).
Proof.
  intros Hvalid Hdoc Hread Hw Hat. unfold app.
  rewrite validateBody_valid by done. unfold updateTodo, try_catch, bind.
  rewrite (updateByIdAndUpdate_found id _ fs items i o), Hw by done.
  simpl. destruct Hat as (_ & Hid & _). by rewrite (merged_id id).
Qed.

End Merge.

(** X8. A valid PUT /todos/:id on a readable, writable collection that has
    the id is answered 200 with [{id}]; the first record with that id is
    replaced, where it is, by the merge of the record and the body: a key the
    body does not have keeps the value of the record, a key the body has
    takes the value of the body. *)
Theorem X8_put_merges uuid id update fs items i o :
  valid updateTodoSchema update -> NoDup (own_props update).*1 ->
  document fs = Some (JArr items) -> Forall readable items ->
  writable fs = true -> todo_at id items i o ->
  let merged := spread o (own_props update) in
  app uuid (PUT_todo id update) fs
  = (Ok (status_json 200 (JObj [("id", JStr id)])),
     mkFs (Some (JArr (<[i:=JObj merged]> items))) true) /\
  (forall k, k ∉ (own_props update).*1 -> get_prop k merged = get_prop k o) /\
  (forall k v, get_prop k (own_props update) = Some v -> get_prop k merged = Some v).
Proof.
  intros Hvalid Hnd Hdoc Hread Hw Hat merged. split_and!.
  - by apply put_valid.
  - intros k Hk. by apply get_spread_other.
  - intros k v Hk. by apply get_spread_source.
Qed.

Lemma X8_put_merges_witness :
  let update := JObj [("title", JStr "Buy milk"); ("completed", JBool true)] in
  let merged := [("id", JStr "t1"); ("title", JStr "Buy milk");
                 ("description", JStr "I should buy groceries");
                 ("completed", JBool true)] in
  app "u1" (PUT_todo "t1" update) (groceries_store "t1")
  = (Ok (status_json 200 (JObj [("id", JStr "t1")])),
     mkFs (Some (JArr [JObj merged])) true) /\
  (forall k, k ∉ (own_props update).*1 ->
     get_prop k merged = get_prop k (own_props (groceries_record "t1"))) /\
  (forall k v, get_prop k (own_props update) = Some v -> get_prop k merged = Some v).
Proof.
  apply (X8_put_merges "u1" "t1"
           (JObj [("title", JStr "Buy milk"); ("completed", JBool true)])
           (groceries_store "t1")
           [groceries_record "t1"] 0 (own_props (groceries_record "t1"))).
  - reflexivity.
  - simpl. repeat constructor; rewrite ?not_elem_of_cons;
      try split; try done; apply not_elem_of_nil.
  - reflexivity.
  - repeat constructor. discriminate.
  - reflexivity.
  - apply todo_at_here. split; reflexivity.
Defined.

(** X9. After such a PUT, GET /todos/:id on the same id answers with the
    merged record. *)
Theorem X9_get_after_put uuid uuid' id update fs items i o :
  valid updateTodoSchema update ->
  document fs = Some (JArr items) -> Forall readable items ->
  writable fs = true -> todo_at id items i o ->
  response uuid' (GET_todo id) (after uuid (PUT_todo id update) fs)
  = Ok (send (JObj (spread o (own_props update)))).
Proof.
  intros Hvalid Hdoc Hread Hw Hat. unfold after, response.
  rewrite (put_valid uuid id update fs items i o) by done.
  simpl. unfold getTodoById, bind.
  set (merged := spread o (own_props update)).
  rewrite (findById_found id _ (<[i:=JObj merged]> items) i merged);
    [done | done | |].
  - apply Forall_insert; [done | discriminate].
  - apply (todo_at_insert id items i o); [done|].
    destruct Hat as (_ & Hid & _). by apply merged_id.
Qed.

Lemma X9_get_after_put_witness :
  response "u2" (GET_todo "t1")
    (after "u1" (PUT_todo "t1" (JObj [("completed", JBool true)]))
       (groceries_store "t1"))
  = Ok (send (JObj [("id", JStr "t1"); ("title", JStr "Buy groceries");
                    ("description", JStr "I should buy groceries");
                    ("completed", JBool true)])).
Proof.
  apply (X9_get_after_put "u1" "u2" "t1" (JObj [("completed", JBool true)])
           (groceries_store "t1")
           [groceries_record "t1"] 0 (own_props (groceries_record "t1"))).
  - reflexivity.
  - reflexivity.
  - repeat constructor. discriminate.
  - reflexivity.
  - apply todo_at_here. split; reflexivity.
Defined.

(** X10. PUT /todos/:id is idempotent: on any file, sending the same request
    a second time leaves the file as the first one left it. *)
Theorem X10_put_twice uuid uuid' id update fs :
  NoDup (own_props update).*1 ->
  after uuid' (PUT_todo id update) (after uuid (PUT_todo id update) fs)
  = after uuid (PUT_todo id update) fs.
Proof.
  intros Hnd.
  destruct (valid_dec updateTodoSchema update) as [Hvalid|(d & ds & Hd)].
  2: { unfold after. simpl. by rewrite !(validateBody_invalid _ _ _ d ds). }
  assert (Hsame : forall fs0, after uuid (PUT_todo id update) fs0 = fs0 ->
            after uuid' (PUT_todo id update) fs0 = fs0) by done.
  destruct (updateByIdAndUpdate id update fs) as [r fs1] eqn:Hupd.
  pose proof Hupd as Hcases.
  apply updateByIdAndUpdate_inv in Hcases
    as [->|(items & i & o & Hdoc & Hread & Hw & Hat & -> & ->)].
  - assert (Hfirst : after uuid (PUT_todo id update) fs = fs).
    { unfold after. simpl. rewrite validateBody_valid by done.
      unfold updateTodo, try_catch, bind. rewrite Hupd. by destruct r. }
    rewrite Hfirst. by apply Hsame.
  - set (merged := spread o (own_props update)).
    assert (Hfirst : after uuid (PUT_todo id update) fs
                     = mkFs (Some (JArr (<[i:=JObj merged]> items))) true).
    { unfold after. by rewrite (put_valid uuid id update fs items i o). }
    rewrite Hfirst. unfold after.
    rewrite (put_valid uuid' id update _ (<[i:=JObj merged]> items) i merged);
      [|done|done| |done|].
    + simpl. rewrite list_insert_insert_eq. unfold merged.
      by rewrite spread_twice.
    + apply Forall_insert; [done | discriminate].
    + apply (todo_at_insert id items i o); [done|].
      destruct Hat as (_ & Hid & _). by apply merged_id.
Qed.

Lemma X10_put_twice_witness :
  let req := PUT_todo "t1" (JObj [("completed", JBool true)]) in
  after "u2" req (after "u1" req (groceries_store "t1"))
  = after "u1" req (groceries_store "t1").
Proof.
  apply (X10_put_twice "u1" "u2" "t1" (JObj [("completed", JBool true)])).
  simpl. apply NoDup_singleton.
Defined.

(** ** Create and delete *)

(** X11. On a readable, writable collection in which the generated id is
    new, a valid POST /todos (201) followed by DELETE /todos/:id on the id it
    returned (200) leaves the file exactly as it was. *)
Theorem X11_create_then_delete uuid uuid' body fs items :
  valid todoSchema body ->
  document fs = Some (JArr items) -> Forall readable items ->
  writable fs = true -> absent uuid items ->
  let fs' := after uuid (POST_todos body) fs in
  response uuid (POST_todos body) fs
  = Ok (status_json 201 (JObj (new_record uuid body))) /\
  app uuid' (DELETE_todo uuid) fs' = (Ok (sendStatus 200), fs).
Proof.
  intros Hvalid Hdoc Hread Hw Hfresh fs'.
  pose proof (post_valid uuid body fs items Hvalid Hdoc Hw) as Hpost.
  unfold fs', response, after. rewrite Hpost. split; [done|].
  set (record := new_record uuid body).
  simpl. unfold deleteTodo, try_catch, bind.
  rewrite (deleteById_found uuid _ (items ++ [JObj record]) (length items) record).
  - simpl. rewrite delete_take_drop, take_app_length.
    replace (S (length items)) with (length items + 1) by lia.
    rewrite drop_app_add. simpl. rewrite app_nil_r.
    destruct fs as [doc w]. simpl in *. by subst.
  - done.
  - apply Forall_app. split; [done|]. by repeat constructor.
  - split_and!; [by apply list_lookup_middle | by apply new_record_id |].
    intros j y Hj Hy. apply Hfresh.
    rewrite lookup_app_l in Hy by done. by eapply list_elem_of_lookup_2.
Qed.

Lemma X11_create_then_delete_witness :
  let fs' := after "t2" (POST_todos groceries) (groceries_store "t1") in
  response "t2" (POST_todos groceries) (groceries_store "t1")
  = Ok (status_json 201 (groceries_record "t2")) /\
  app "u3" (DELETE_todo "t2") fs' = (Ok (sendStatus 200), groceries_store "t1").
Proof.
  apply (X11_create_then_delete "t2" "u3" groceries (groceries_store "t1")
           [groceries_record "t1"]).
  - reflexivity.
  - reflexivity.
  - repeat constructor. discriminate.
  - reflexivity.
  - intros x ->%list_elem_of_singleton. vm_compute. discriminate.
Defined.

(** X12. When [uuidv4()] returns an id a record already has, the valid POST
    /todos is still answered 201 with that id, but GET /todos/:id on it
    answers with the older record, not with the one just created. *)
Theorem X12_colliding_id_reads_old_record uuid uuid' body fs items i o :
  valid todoSchema body ->
  document fs = Some (JArr items) -> Forall readable items ->
  writable fs = true -> todo_at uuid items i o ->
  response uuid (POST_todos body) fs
  = Ok (status_json 201 (JObj (new_record uuid body))) /\
  response uuid' (GET_todo uuid) (after uuid (POST_todos body) fs)
  = Ok (send (JObj o)).
Proof.
  intros Hvalid Hdoc Hread Hw Hat.
  pose proof (post_valid uuid body fs items Hvalid Hdoc Hw) as Hpost.
  unfold response, after. rewrite Hpost. split; [done|].
  simpl. unfold getTodoById, bind.
  rewrite (findById_found uuid _ (items ++ [JObj (new_record uuid body)]) i o).
  - done.
  - done.
  - apply Forall_app. split; [done|]. by repeat constructor.
  - by apply todo_at_app.
Qed.

Lemma X12_colliding_id_reads_old_record_witness :
  let body := JObj [("title", JStr "Buy milk"); ("description", JStr "Milk")] in
  response "t1" (POST_todos body) (groceries_store "t1")
  = Ok (status_json 201 (JObj (new_record "t1" body))) /\
  response "u2" (GET_todo "t1") (after "t1" (POST_todos body) (groceries_store "t1"))
  = Ok (send (groceries_record "t1")).
Proof.
  apply (X12_colliding_id_reads_old_record "t1" "u2" _ (groceries_store "t1")
           [groceries_record "t1"] 0 (own_props (groceries_record "t1"))).
  - reflexivity.
  - reflexivity.
  - repeat constructor. discriminate.
  - reflexivity.
  - apply todo_at_here. split; reflexivity.
Defined.

(** ** What a request leaves alone *)

Section Frame.
Implicit Types (id : string) (p : Json -> result bool) (x y : Json)
  (items : list Json).

Lemma filter_items_snoc p items y :
  p y = Ok false -> filter_items p (items ++ [y]) = filter_items p items.
Proof.
  intros Hy. induction items as [|x items IH]; simpl.
  - by rewrite Hy.
  - by rewrite IH.
Qed.

Lemma filter_items_insert p items i x y :
  items !! i = Some x -> p x = Ok false -> p y = Ok false ->
  filter_items p (<[i:=y]> items) = filter_items p items.
Proof.
  revert i. induction items as [|z items IH]; intros [|i] Hx Hpx Hpy;
    simpl in *; try done.
  - injection Hx as ->. by rewrite Hpx, Hpy.
  - by rewrite (IH i).
Qed.

Lemma filter_items_delete p items i x :
  items !! i = Some x -> p x = Ok false ->
  filter_items p (delete i items) = filter_items p items.
Proof.
  revert i. induction items as [|z items IH]; intros [|i] Hx Hpx;
    simpl in *; try done.
  - injection Hx as ->. rewrite Hpx. simpl.
    by destruct (filter_items p items).
  - by rewrite (IH i).
Qed.

(** A record under one id does not answer to another. *)
Lemma has_id_other id id' o :
  get_prop "id" o = Some (JStr id) -> id' <> id ->
  has_id id' (JObj o) = Ok false.
Proof.
  intros Hid Hne. unfold has_id. simpl. rewrite Hid. simpl.
  by rewrite bool_decide_eq_false_2 by congruence.
Qed.

(** What GET /todos/:id answers depends on the matches of the id only. *)
Lemma get_by_matches uuid id fs fs' items items' :
  document fs = Some (JArr items) -> document fs' = Some (JArr items') ->
  filter_items (has_id id) items' = filter_items (has_id id) items ->
  response uuid (GET_todo id) fs' = response uuid (GET_todo id) fs.
Proof.
  intros Hdoc Hdoc' Hsame. unfold response. simpl.
  unfold getTodoById, findById, bind, find, lift, resolve.
  rewrite Hdoc, Hdoc'. simpl. rewrite Hsame.
  destruct (filter_items (has_id id) items) as [found|]; [|done]. simpl.
  by destruct (truthy (default JNull (head found))).
Qed.

End Frame.

(** X13. A request leaves the answer of GET /todos/:id as it was for every
    id other than the one it can write under (the generated id for POST, the
    id of the path for PUT and DELETE), on any file and whether it succeeds
    or not. *)
Theorem X13_other_ids_unaffected uuid uuid' req id fs :
  written_id uuid req <> Some id ->
  response uuid' (GET_todo id) (after uuid req fs)
  = response uuid' (GET_todo id) fs.
Proof.
  intros Hother. unfold after.
  destruct req as [|id0|body|id0 body|id0|]; simpl in *.
  - by rewrite getAllTodos_reads.
  - by rewrite getTodoById_reads.
  - destruct (valid_dec todoSchema body) as [Hvalid|(d & ds & Hd)];
      [|by rewrite (validateBody_invalid _ _ _ d ds)].
    rewrite validateBody_valid by done.
    destruct (createTodo_writes uuid body fs) as [->|(items & Hdoc & ->)];
      [done|].
    eapply get_by_matches; [done | done |].
    apply filter_items_snoc, (has_id_other uuid); [|congruence].
    by apply new_record_id.
  - destruct (valid_dec updateTodoSchema body) as [Hvalid|(d & ds & Hd)];
      [|by rewrite (validateBody_invalid _ _ _ d ds)].
    rewrite validateBody_valid by done.
    unfold updateTodo, try_catch, bind.
    destruct (updateByIdAndUpdate id0 body fs) as [r fs1] eqn:Hupd.
    apply updateByIdAndUpdate_inv in Hupd
      as [->|(items & i & o & Hdoc & Hread & Hw & Hat & -> & ->)];
      [by destruct r|].
    simpl. destruct Hat as (Hlook & Hid & _).
    eapply get_by_matches; [done | done |].
    eapply filter_items_insert; [done | |].
    + apply (has_id_other id0); [done | congruence].
    + apply (has_id_other id0); [by apply merged_id | congruence].
  - destruct (deleteTodo_writes id0 fs)
      as [[-> _]|(items & i & o & Hdoc & _ & (Hlook & Hid & _) & ->)]; [done|].
    simpl. eapply get_by_matches; [done | done |].
    eapply filter_items_delete; [done|].
    apply (has_id_other id0); [done | congruence].
  - done.
Qed.

Lemma X13_other_ids_unaffected_witness :
  let fs := mkFs (Some (JArr [groceries_record "t1"; groceries_record "t2"])) true in
  response "u2" (GET_todo "t2") (after "u1" (DELETE_todo "t1") fs)
  = response "u2" (GET_todo "t2") fs.
Proof.
  apply (X13_other_ids_unaffected "u1" "u2" (DELETE_todo "t1") "t2").
  simpl. congruence.
Defined.

(** ** What the two schemas let through *)

Section Schemas.
Implicit Types (schema keys : Joi.ObjectSchema) (o : object) (body v : Json)
  (item : option Json) (k : string).

(** The declared keys are judged one by one, each on the value the clone
    has for it: what Joi writes back for one key does not reach another. *)
Lemma validate_keys_pass keys proto o :
  NoDup keys.*1 ->
  (Joi.validate_keys true keys proto o).1 = []
  <-> Forall (item_passes proto o) keys.
Proof.
  revert o. induction keys as [|[k s] keys IH]; intros o Hnd; simpl.
  - split; [by constructor | done].
  - apply NoDup_cons in Hnd as [Hk Hnd]. rewrite Forall_cons.
    unfold item_passes at 1. simpl.
    assert (Hother : forall v ks, ks ∈ keys ->
              item_passes proto (set_prop k v o) ks <-> item_passes proto o ks).
    { intros v [k' s'] Hin. unfold item_passes, Joi.read. simpl.
      rewrite get_set_ne; [done|].
      intros ->. apply Hk. by apply (list_elem_of_fmap_2 fst keys (k, s')). }
    destruct (Joi.validate_item k s (Joi.read k o proto)) as [d|[v|]] eqn:Hitem.
    + simpl. split; [done|]. by intros [[r [=]] _].
    + rewrite IH by done. rewrite !Forall_forall. split.
      * intros Hrest. split; [by eauto|].
        intros ks Hin. by apply (Hother v), Hrest.
      * intros [_ Hrest] ks Hin. by apply (Hother v), Hrest.
    + rewrite IH by done. split; [by eauto | by intros [_ ?]].
Qed.

Lemma unprocessed_nil schema o :
  Joi.unprocessed schema o = [] <-> forall k, k ∈ o.*1 -> k ∈ schema.*1.
Proof.
  unfold Joi.unprocessed. split.
  - intros Hnil k Hk. destruct (decide (k ∈ schema.*1)) as [|Hnotin]; [done|].
    by destruct (filter_nil_not_elem_of _ _ k Hnil Hnotin).
  - intros Hdecl. induction (o.*1) as [|k l IH]; [done|].
    rewrite filter_cons. rewrite decide_False.
    + apply IH. intros k' Hk'. by apply Hdecl, list_elem_of_further.
    + intros Hnotin. apply Hnotin, Hdecl, list_elem_of_here.
Qed.

(** A body passes a schema exactly when it is an object, each declared key
    passes on what the clone has for it, and every own key is a declared key
    or [__proto__]. *)
Lemma valid_iff schema body :
  NoDup schema.*1 ->
  valid schema body <->
  exists o, body = JObj o /\
    Forall (item_passes (Joi.clone_proto o) (Joi.clone_own o)) schema /\
    forall k, k ∈ o.*1 -> k = "__proto__" \/ k ∈ schema.*1.
Proof.
  intros Hnd. destruct body as [| | | | |o];
    try (split; [done | by intros (? & [=] & _)]).
  split.
  - intros Hvalid. exists o. split; [done|]. split.
    + apply validate_keys_pass; [done|].
      unfold valid, Joi.validate, Joi.validate_with in Hvalid.
      by destruct (Joi.validate_keys true schema _ _).1.
    + by destruct (valid_body_object schema (JObj o) Hvalid) as (? & [= <-] & ?).
  - intros (o' & [= <-] & Hall & Hdecl).
    apply validate_keys_pass in Hall; [|done].
    assert (Hnone : Joi.unprocessed schema (Joi.clone_own o) = []).
    { apply unprocessed_nil. intros k [Hk Hproto]%clone_own_keys.
      by destruct (Hdecl k Hk). }
    unfold valid, Joi.validate, Joi.validate_with. by rewrite Hall, Hnone.
Qed.

Lemma boolean_coerce_like v :
  (exists b, Joi.boolean_coerce v = JBool b) <-> boolean_like v.
Proof.
  unfold boolean_like. destruct v as [|b| |s| |]; simpl.
  - split; [by intros [? [=]] | by intros [[? [=]]|(? & [=] & _)]].
  - split; [by eauto | by eauto].
  - split; [by intros [? [=]] | by intros [[? [=]]|(? & [=] & _)]].
  - destruct (decide (toLowerCase s = "true")) as [Ht|Ht];
      [|destruct (decide (toLowerCase s = "false")) as [Hf|Hf]].
    + split; [by eauto 6 | by eauto].
    + split; [by eauto 6 | by eauto].
    + split; [by intros [? [=]]|].
      intros [[? [=]]|(s' & [= <-] & [?|?])]; done.
  - split; [by intros [? [=]] | by intros [[? [=]]|(? & [=] & _)]].
  - split; [by intros [? [=]] | by intros [[? [=]]|(? & [=] & _)]].
Qed.

Lemma required_string_passes k item :
  (exists r, Joi.validate_item k (Joi.mkKey Joi.string_ true None) item = inr r)
  <-> nonempty_string item.
Proof.
  unfold nonempty_string. destruct item as [[| | |s| |]|]; simpl;
    try (split; [by intros [? [=]] | by intros (? & [=] & _)]).
  destruct (decide (s = "")) as [->|Hs].
  - split; [by intros [? [=]] | by intros (? & [= <-] & ?)].
  - split; [by eauto | by eauto].
Qed.

Lemma optional_string_passes k item :
  (exists r, Joi.validate_item k (Joi.mkKey Joi.string_ false None) item = inr r)
  <-> item = None \/ nonempty_string item.
Proof.
  destruct item as [v|]; [|split; by eauto].
  rewrite <- (required_string_passes k (Some v)). simpl.
  split; [by right | by intros [[=]|?]].
Qed.

Lemma boolean_passes k d item :
  (exists r, Joi.validate_item k (Joi.mkKey Joi.boolean_ false d) item = inr r)
  <-> forall v, item = Some v -> boolean_like v.
Proof.
  destruct item as [v|]; simpl; [|split; [by intros _ ? [=] | by eauto]].
  split.
  - intros [r Hr] v' [= <-]. apply boolean_coerce_like.
    destruct (Joi.boolean_coerce v); try done. by eauto.
  - intros Hlike. destruct (proj2 (boolean_coerce_like v) (Hlike v eq_refl))
      as [b ->]. by eauto.
Qed.

End Schemas.

(** X14. The create schema lets a body through exactly when it is an
    object in which the validator sees a [title] and a [description] that are
    strings and not empty and a [completed] that, if there is one, is a
    boolean or one of the strings true and false in any case, and which has
    no own key besides these three and [__proto__]. What the validator sees
    under a key is the own property or, without one, the property of the
    object under the body's own key [__proto__]. *)
Theorem X14_valid_create_iff body :
  valid todoSchema body <->
  exists o, body = JObj o /\
    nonempty_string (seen "title" o) /\
    nonempty_string (seen "description" o) /\
    (forall v, seen "completed" o = Some v -> boolean_like v) /\
    (forall k, k ∈ o.*1 ->
       k = "__proto__" \/ k ∈ ["title"; "completed"; "description"]).
Proof.
  rewrite valid_iff by (by apply (bool_decide_unpack _)).
  assert (Hkeys : forall o,
    Forall (item_passes (Joi.clone_proto o) (Joi.clone_own o)) todoSchema <->
    nonempty_string (seen "title" o) /\ nonempty_string (seen "description" o) /\
    (forall v, seen "completed" o = Some v -> boolean_like v)).
  { intros o. unfold todoSchema. rewrite !Forall_cons, Forall_nil.
    unfold item_passes. simpl.
    rewrite !required_string_passes, boolean_passes.
    fold (Joi.item "title" o) (Joi.item "completed" o) (Joi.item "description" o).
    rewrite !item_seen by done. tauto. }
  split; intros (o & -> & H); exists o; (split; [done|]);
    rewrite Hkeys in *; tauto.
Qed.

(** X15. The update schema lets a body through exactly when it is an
    object in which the [title] and the [description] the validator sees, if
    any, are strings and not empty, the [completed] it sees, if any, is a
    boolean or one of the strings true and false in any case, and which has
    no own key besides these three and [__proto__]. The empty object
    passes. *)
Theorem X15_valid_update_iff body :
  valid updateTodoSchema body <->
  exists o, body = JObj o /\
    (seen "title" o = None \/ nonempty_string (seen "title" o)) /\
    (seen "description" o = None \/ nonempty_string (seen "description" o)) /\
    (forall v, seen "completed" o = Some v -> boolean_like v) /\
    (forall k, k ∈ o.*1 ->
       k = "__proto__" \/ k ∈ ["title"; "completed"; "description"]).
Proof.
  rewrite valid_iff by (by apply (bool_decide_unpack _)).
  assert (Hkeys : forall o,
    Forall (item_passes (Joi.clone_proto o) (Joi.clone_own o)) updateTodoSchema <->
    (seen "title" o = None \/ nonempty_string (seen "title" o)) /\
    (seen "description" o = None \/ nonempty_string (seen "description" o)) /\
    (forall v, seen "completed" o = Some v -> boolean_like v)).
  { intros o. unfold updateTodoSchema. rewrite !Forall_cons, Forall_nil.
    unfold item_passes. simpl.
    rewrite !optional_string_passes, boolean_passes.
    fold (Joi.item "title" o) (Joi.item "completed" o) (Joi.item "description" o).
    rewrite !item_seen by done. tauto. }
  split; intros (o & -> & H); exists o; (split; [done|]);
    rewrite Hkeys in *; tauto.
Qed.

(** ** Every request, case by case *)

Section Cases.
Implicit Types (uuid id : string) (fs : Fs) (items : list Json) (o : object)
  (body : Json) (req : Request).

Lemma createTodo_cases uuid body fs :
  (exists e, createTodo uuid body fs = (Err e, fs)) \/
  (exists items, document fs = Some (JArr items) /\ writable fs = true /\
     createTodo uuid body fs
     = (Ok (status_json 201 (JObj (new_record uuid body))),
        mkFs (Some (JArr (items ++ [JObj (new_record uuid body)]))) true)).
Proof.
  destruct (document fs) as [[| | | |items|]|] eqn:Hdoc;
    try (left; exists TypeError;
         unfold createTodo, save, bind, find, lift; by rewrite Hdoc).
  - rewrite (createTodo_spec uuid body fs items Hdoc).
    destruct (writable fs); [right; by eauto | left; by eauto].
  - left. exists StorageError.
    unfold createTodo, save, bind, find, lift. by rewrite Hdoc.
Qed.

Lemma updateTodo_cases id body fs :
  valid updateTodoSchema body ->
  updateTodo id body fs = (Ok (sendStatus 404), fs) \/
  (exists items i o, document fs = Some (JArr items) /\ Forall readable items /\
     writable fs = true /\ todo_at id items i o /\
     updateTodo id body fs
     = (Ok (status_json 200 (JObj [("id", JStr id)])),
        mkFs (Some (JArr (<[i:=JObj (spread o (own_props body))]> items))) true)).
Proof.
  intros Hvalid.
  destruct (findById id fs) as [r0 fs0] eqn:Hfind.
  destruct (findById_inv id fs r0 fs0 Hfind) as [-> Hr0].
  destruct r0 as [todo|e].
  - destruct (Hr0 todo eq_refl)
      as (items & Hdoc & Hread & [[-> Habs]|(i & o & -> & Hat)]).
    + left. unfold updateTodo, try_catch, updateByIdAndUpdate, bind.
      by rewrite Hfind.
    + destruct (writable fs) eqn:Hw.
      * right. exists items, i, o. split_and!; try done.
        pose proof (put_valid "" id body fs items i o Hvalid Hdoc Hread Hw Hat)
          as Hput.
        simpl in Hput. by rewrite validateBody_valid in Hput.
      * left. unfold updateTodo, try_catch, bind.
        by rewrite (updateByIdAndUpdate_found id _ fs items i o), Hw.
  - left. unfold updateTodo, try_catch, updateByIdAndUpdate, bind.
    by rewrite Hfind.
Qed.

(** A request leaves the file alone and is not answered 200 or 201 by a
    writing route, or it is one of the three writes. *)
Lemma app_cases uuid req fs :
  (after uuid req fs = fs /\
   forall r, response uuid req fs = Ok r -> writes req = true ->
             status r = 400 \/ status r = 404) \/
  (exists body items, req = POST_todos body /\
     document fs = Some (JArr items) /\
     app uuid req fs
     = (Ok (status_json 201 (JObj (new_record uuid body))),
        mkFs (Some (JArr (items ++ [JObj (new_record uuid body)]))) true)) \/
  (exists id body items i o, req = PUT_todo id body /\
     document fs = Some (JArr items) /\ todo_at id items i o /\
     app uuid req fs
     = (Ok (status_json 200 (JObj [("id", JStr id)])),
        mkFs (Some (JArr (<[i:=JObj (spread o (own_props body))]> items))) true)) \/
  (exists id items i o, req = DELETE_todo id /\
     document fs = Some (JArr items) /\ todo_at id items i o /\
     app uuid req fs
     = (Ok (sendStatus 200), mkFs (Some (JArr (delete i items))) true)).
Proof.
  unfold after, response.
  destruct req as [|id|body|id body|id|]; simpl.
  - left. split; [by apply getAllTodos_reads | done].
  - left. split; [by apply getTodoById_reads | done].
  - destruct (valid_dec todoSchema body) as [Hvalid|(d & ds & Hd)].
    + rewrite validateBody_valid by done.
      destruct (createTodo_cases uuid body fs)
        as [[e ->]|(items & Hdoc & Hw & ->)]; [left; by split|].
      right. left. by exists body, items.
    + left. rewrite (validateBody_invalid _ _ _ d ds) by done.
      split; [done|]. intros r [= <-] _. by left.
  - destruct (valid_dec updateTodoSchema body) as [Hvalid|(d & ds & Hd)].
    + rewrite validateBody_valid by done.
      destruct (updateTodo_cases id body fs Hvalid)
        as [->|(items & i & o & Hdoc & _ & _ & Hat & ->)].
      * left. split; [done|]. intros r [= <-] _. by right.
      * right. right. left. by exists id, body, items, i, o.
    + left. rewrite (validateBody_invalid _ _ _ d ds) by done.
      split; [done|]. intros r [= <-] _. by left.
  - destruct (deleteTodo_writes id fs)
      as [[Hsame Hresp]|(items & i & o & Hdoc & _ & Hat & ->)].
    + left. split; [done|]. rewrite Hresp. intros r [= <-] _. by right.
    + right. right. right. by exists id, items, i, o.
  - left. by split.
Qed.

End Cases.

(** X16. The file changes only when a POST /todos is answered 201 or a PUT
    or DELETE /todos/:id is answered 200: a request that rejects, or is
    answered 400 or 404, and every GET, leaves it as it was. *)
Theorem X16_only_success_writes uuid req fs :
  after uuid req fs <> fs ->
  writes req = true /\
  exists r, response uuid req fs = Ok r /\ (status r = 200 \/ status r = 201).
Proof.
  intros Hchanged. unfold after, response in *.
  destruct (app_cases uuid req fs)
    as [[Hsame _]|[(body & items & -> & _ & Happ)
       |[(id & body & items & i & o & -> & _ & _ & Happ)
        |(id & items & i & o & -> & _ & _ & Happ)]]].
  - done.
  - rewrite Happ. split; [done|]. by eauto.
  - rewrite Happ. split; [done|]. by eauto.
  - rewrite Happ. split; [done|]. by eauto.
Qed.

Lemma X16_only_success_writes_witness :
  writes (POST_todos groceries) = true /\
  exists r, response "u1" (POST_todos groceries) empty_store = Ok r /\
            (status r = 200 \/ status r = 201).
Proof.
  apply (X16_only_success_writes "u1" (POST_todos groceries) empty_store).
  vm_compute. discriminate.
Defined.

(** X17. The size of the collection: a POST /todos answered 201 adds one
    element, a DELETE /todos/:id answered 200 takes one away, and no other
    request, answered or not, changes it. *)
Theorem X17_collection_size uuid req fs :
  size (after uuid req fs) =
  match req, response uuid req fs with
  | POST_todos _, Ok r => if (status r =? 201)%nat then S (size fs) else size fs
  | DELETE_todo _, Ok r => if (status r =? 200)%nat then size fs - 1 else size fs
  | _, _ => size fs
  end.
Proof.
  unfold after, response.
  destruct (app_cases uuid req fs)
    as [[Hsame Hfail]|[(body & items & -> & Hdoc & Happ)
       |[(id & body & items & i & o & -> & Hdoc & Hat & Happ)
        |(id & items & i & o & -> & Hdoc & Hat & Happ)]]].
  - unfold after, response in *. rewrite Hsame.
    destruct req as [|id|body|id body|id|]; try done;
      destruct (app _ _ fs).1 as [r|] eqn:Hr; try done;
      destruct (Hfail r eq_refl eq_refl) as [->| ->]; done.
  - rewrite Happ. unfold size. rewrite Hdoc. simpl.
    rewrite length_app. simpl. lia.
  - rewrite Happ. unfold size. rewrite Hdoc. simpl. by rewrite length_insert.
  - rewrite Happ. unfold size. rewrite Hdoc. simpl.
    rewrite length_delete; [done|]. destruct Hat as (Hlook & _). by eauto.
Qed.

(** X18. PUT and DELETE /todos/:id always answer, on any file: their
    promise never rejects, and the answer is 200, 400 or 404 for PUT and 200
    or 404 for DELETE. *)
Theorem X18_put_and_delete_always_answer uuid id body fs :
  (exists r, response uuid (PUT_todo id body) fs = Ok r /\
             (status r = 200 \/ status r = 400 \/ status r = 404)) /\
  (exists r, response uuid (DELETE_todo id) fs = Ok r /\
             (status r = 200 \/ status r = 404)).
Proof.
  unfold response. simpl. split.
  - destruct (valid_dec updateTodoSchema body) as [Hvalid|(d & ds & Hd)].
    + rewrite validateBody_valid by done.
      destruct (updateTodo_cases id body fs Hvalid)
        as [->|(items & i & o & _ & _ & _ & _ & ->)]; simpl; by eauto.
    + rewrite (validateBody_invalid _ _ _ d ds) by done. simpl. by eauto.
  - destruct (deleteTodo_writes id fs)
      as [[_ ->]|(items & i & o & _ & _ & _ & ->)]; simpl; by eauto.
Qed.

(** ** Sequences of requests *)

(** X19. No two records share an id, for ever: when the collection starts
    that way and every identifier [uuidv4()] returns is new to the collection
    at the time, it is still so after any sequence of requests. *)
Theorem X19_ids_stay_unique steps fs :
  keyed_by_id fs -> fresh_run steps fs -> keyed_by_id (run steps fs).
Proof. apply keyed_by_id_run. Qed.

Lemma X19_ids_stay_unique_witness :
  keyed_by_id
    (run [("t1", POST_todos groceries);
          ("u2", PUT_todo "t1" (JObj [("completed", JBool true)]));
          ("t3", POST_todos groceries);
          ("u4", DELETE_todo "t1")] empty_store).
Proof.
  apply X19_ids_stay_unique.
  - intros items [= <-] id [|i] [|j] x y Hi Hj; done.
  - simpl. split_and!; try done.
    + intros items [= <-] x Hx. by apply elem_of_nil in Hx.
    + intros items [= <-] x ->%list_elem_of_singleton. vm_compute. discriminate.
    + intros items [= <-] x ->%list_elem_of_singleton. vm_compute. discriminate.
    + intros items [= <-] x [->| ->%list_elem_of_singleton]%elem_of_cons;
        vm_compute; discriminate.
Defined.

(** X20. GET /todos lists the records in the order they were created: valid
    POSTs on a collection that can be read and written append their records
    one after the other, and GET /todos then sends the old elements followed
    by the new records in that order. *)
Theorem X20_creation_order bodies uuid fs items :
  Forall (fun ub => valid todoSchema ub.2) bodies ->
  document fs = Some (JArr items) -> writable fs = true ->
  let created := (fun ub => JObj (new_record ub.1 ub.2)) <$> bodies in
  let fs' := run (posts bodies) fs in
  fs' = mkFs (Some (JArr (items ++ created))) true /\
  app uuid GET_todos fs' = (Ok (send (JArr (items ++ created))), fs').
Proof.
  intros Hvalid Hdoc Hw created fs'.
  assert (Hrun : fs' = mkFs (Some (JArr (items ++ created))) true).
  { unfold fs', created. clear fs' created.
    revert fs items Hdoc Hw.
    induction Hvalid as [|[u b] bodies Hb _ IH]; intros fs items Hdoc Hw; simpl.
    - rewrite app_nil_r. destruct fs as [doc w]. simpl in *. by subst.
    - unfold after at 1.
      rewrite (post_valid u b fs items Hb Hdoc Hw). simpl.
      rewrite (IH _ (items ++ [JObj (new_record u b)])) by done.
      by rewrite <- app_assoc. }
  split; [done|]. by rewrite Hrun.
Qed.

Lemma X20_creation_order_witness :
  let milk := JObj [("title", JStr "Buy milk"); ("description", JStr "Milk")] in
  let fs' := run (posts [("t1", groceries); ("t2", milk)]) empty_store in
  fs' = mkFs (Some (JArr [groceries_record "t1"; JObj (new_record "t2" milk)])) true /\
  app "u3" GET_todos fs'
  = (Ok (send (JArr [groceries_record "t1"; JObj (new_record "t2" milk)])), fs').
Proof.
  intros milk.
  apply (X20_creation_order [("t1", groceries); ("t2", milk)] "u3" empty_store []).
  - repeat constructor.
  - reflexivity.
  - reflexivity.
Defined.

(** ** What validation lets into the file *)

(** X21. A PUT /todos/:id whose [completed] is the string true or false, in
    any case, passes the update schema, and it is that string, not a
    boolean, that is stored: the conversion Joi makes stays in the value the
    validator drops. *)
Theorem X21_completed_string_is_stored uuid id s fs items i o :
  toLowerCase s = "true" \/ toLowerCase s = "false" ->
  document fs = Some (JArr items) -> Forall readable items ->
  writable fs = true -> todo_at id items i o ->
  let merged := set_prop "completed" (JStr s) o in
  app uuid (PUT_todo id (JObj [("completed", JStr s)])) fs
  = (Ok (status_json 200 (JObj [("id", JStr id)])),
     mkFs (Some (JArr (<[i:=JObj merged]> items))) true) /\
  get_prop "completed" merged = Some (JStr s).
Proof.
  intros Hs Hdoc Hread Hw Hat merged. split; [|by apply get_set_eq].
  apply (put_valid uuid id (JObj [("completed", JStr s)]) fs items i o);
    try done.
  unfold valid, Joi.validate, Joi.validate_with. simpl.
  destruct Hs as [-> | ->]; done.
Qed.

Lemma X21_completed_string_is_stored_witness :
  app "u1" (PUT_todo "t1" (JObj [("completed", JStr "TRUE")])) (groceries_store "t1")
  = (Ok (status_json 200 (JObj [("id", JStr "t1")])),
     mkFs (Some (JArr [JObj [("id", JStr "t1"); ("title", JStr "Buy groceries");
                             ("description", JStr "I should buy groceries");
                             ("completed", JStr "TRUE")]])) true) /\
  get_prop "completed"
    (set_prop "completed" (JStr "TRUE") (own_props (groceries_record "t1")))
  = Some (JStr "TRUE").
Proof.
  apply (X21_completed_string_is_stored "u1" "t1" "TRUE" (groceries_store "t1")
           [groceries_record "t1"] 0 (own_props (groceries_record "t1"))).
  - left. reflexivity.
  - reflexivity.
  - repeat constructor. discriminate.
  - reflexivity.
  - apply todo_at_here. split; reflexivity.
Defined.

(** X22. A body that is not an object (an array, say) is turned down by
    both validators with the message that the value must be of type object,
    and the file is not touched. *)
Theorem X22_body_must_be_an_object uuid id body fs :
  (forall o, body <> JObj o) ->
  let answer :=
    status_json 400 (JObj [("error", JStr (Joi.message Joi.object_base))]) in
  app uuid (POST_todos body) fs = (Ok answer, fs) /\
  app uuid (PUT_todo id body) fs = (Ok answer, fs).
Proof.
  intros Hne. destruct body as [| | | | |o]; try done. by destruct (Hne o).
Qed.

Lemma X22_body_must_be_an_object_witness :
  let answer :=
    status_json 400 (JObj [("error", JStr (Joi.message Joi.object_base))]) in
  app "u1" (POST_todos (JArr [groceries])) empty_store = (Ok answer, empty_store) /\
  app "u1" (PUT_todo "t1" (JArr [groceries])) empty_store = (Ok answer, empty_store).
Proof.
  apply (X22_body_must_be_an_object "u1" "t1" (JArr [groceries]) empty_store).
  intros o. discriminate.
Defined.

(** X23. [title] is looked at first: an object in which the validator sees
    no [title] (no own property of that name, and none in an object under its
    own key [__proto__]) is turned down by POST /todos with the message that
    title is required, whatever else is wrong with it, and the file is not
    touched. *)
Theorem X23_title_is_checked_first uuid o fs :
  seen "title" o = None ->
  app uuid (POST_todos (JObj o)) fs
  = (Ok (status_json 400
           (JObj [("error", JStr (Joi.message (Joi.any_required "title")))])),
     fs).
Proof. apply missing_title_message. Qed.

Lemma X23_title_is_checked_first_witness :
  app "u1" (POST_todos (JObj [("priority", JNum 1); ("completed", JNull)]))
    empty_store
  = (Ok (status_json 400
           (JObj [("error", JStr (Joi.message (Joi.any_required "title")))])),
     empty_store).
Proof.
  apply (X23_title_is_checked_first "u1" _ empty_store). reflexivity.
Defined.
